(** * Session-log feature extraction: a model of [utils.py]

    The development embeds the token parser [extract_features_from_action],
    the CSV reader [read_csv_file] and the class [CSVDataProcessor] of
    [utils.py], and states the properties of the specification over them.

    Conventions of the model.
    - A Python [str] is a [string]; a character is a code point below 256
      (the Latin-1 range), so [str.strip], [str.lower], the class [\d] and
      [int] are the restrictions of the Python functions to that range.
      [int] converts at most 4300 digits, the default of the interpreter
      ([sys.int_info.default_max_str_digits], since Python 3.11), and raises
      [ValueError] on more; leading zeros are digits like any other.
    - The two patterns are terms of a small regular-expression syntax, run
      by a backtracking matcher that tries alternatives in the order of
      [re]: a repetition takes all it can and gives back one character at a
      time, an optional part is tried before it is skipped.
    - A [set] of strings is a [gset string], iterated through [elements]:
      the order is fixed for a given set and otherwise unspecified.
    - A [dict] from strings to counts is a [gmap string Z].
    - An exception is a value of [exn]; a method of the class is a function
      from the object's state to a result and the state it leaves.
    - A file is the list of rows [csv.reader] yields for it; a table of
      pandas is its column labels and its rows.
    - The float computed by the true division [a / b] is kept as the exact
      rational it rounds. *)

From Stdlib Require Import ZArith QArith Ascii String List Lia Bool.
From stdpp Require Import base option list gmap strings.

Import ListNotations.
Local Open Scope Z_scope.
Local Open Scope char_scope.
Local Open Scope string_scope.
Local Open Scope list_scope.
Local Open Scope stdpp_scope.

(** ** Characters and strings *)

Module PyStr.

(** [str.isspace] on one character, for code points below 256. *)
Definition isspace (c : ascii) : bool :=
  let n := nat_of_ascii c in
  ((9 <=? n) && (n <=? 13) || (28 <=? n) && (n <=? 32)
   || (n =? 133) || (n =? 160))%nat.

(** Membership in the class [\d], for code points below 256. *)
Definition isdigit (c : ascii) : bool :=
  let n := nat_of_ascii c in ((48 <=? n) && (n <=? 57))%nat.

(** [str.lower] on one character, for code points below 256. *)
Definition lower_char (c : ascii) : ascii :=
  let n := nat_of_ascii c in
  if ((65 <=? n) && (n <=? 90)
      || (192 <=? n) && (n <=? 222) && negb (n =? 215))%nat
  then ascii_of_nat (n + 32) else c.

Fixpoint lower (s : string) : string :=
  match s with
  | EmptyString => EmptyString
  | String c s' => String (lower_char c) (lower s')
  end.

Fixpoint lstrip (s : string) : string :=
  match s with
  | EmptyString => EmptyString
  | String c s' => if isspace c then lstrip s' else s
  end.

Fixpoint rstrip (s : string) : string :=
  match s with
  | EmptyString => EmptyString
  | String c s' =>
      match rstrip s' with
      | EmptyString => if isspace c then EmptyString else String c EmptyString
      | r => String c r
      end
  end.

(** [s.strip()] *)
Definition strip (s : string) : string := rstrip (lstrip s).

(** Truth value of a string: non-empty. *)
Definition nonempty (s : string) : bool :=
  match s with EmptyString => false | String _ _ => true end.

(** [c in s] for a character [c]. *)
Fixpoint contains (c : ascii) (s : string) : bool :=
  match s with
  | EmptyString => false
  | String c' s' => if decide (c = c') then true else contains c s'
  end.

(** [s[:n]] *)
Fixpoint take (n : nat) (s : string) : string :=
  match n, s with
  | S n', String c s' => String c (take n' s')
  | _, _ => EmptyString
  end.

(** [s[1:]] *)
Definition tail (s : string) : string :=
  match s with EmptyString => EmptyString | String _ s' => s' end.

Definition digit_value (c : ascii) : Z := Z.of_nat (nat_of_ascii c) - 48.

(** The digits of [int(s)] after the first one: digits, each possibly
    preceded by one underscore. *)
Fixpoint int_digits (acc : Z) (s : string) : option Z :=
  match s with
  | EmptyString => Some acc
  | String c s' =>
      if isdigit c then int_digits (10 * acc + digit_value c) s'
      else if decide (c = "_"%char) then
        match s' with
        | String d s'' =>
            if isdigit d then int_digits (10 * acc + digit_value d) s''
            else None
        | EmptyString => None
        end
      else None
  end.

(** [sys.int_info.default_max_str_digits]: the most digits [int] converts. *)
Definition max_str_digits : Z := 4300.

(** The number of digits in [s]; signs and underscores do not count. *)
Fixpoint digit_count (s : string) : Z :=
  match s with
  | EmptyString => 0
  | String c s' => (if isdigit c then 1 else 0) + digit_count s'
  end.

Definition int_unsigned (s : string) : option Z :=
  match s with
  | String c s' =>
      if isdigit c then
        if decide (digit_count s <= max_str_digits)
        then int_digits (digit_value c) s'
        else None
      else None
  | EmptyString => None
  end.

(** [int(s)] in base ten: surrounding white space is dropped, one sign is
    allowed, and a text of more than [max_str_digits] digits is refused;
    [None] stands for [ValueError]. *)
Definition int (s : string) : option Z :=
  match strip s with
  | String "-" s' => Z.opp <$> int_unsigned s'
  | String "+" s' => int_unsigned s'
  | s' => int_unsigned s'
  end.

End PyStr.

(** ** Regular expressions: the fragment of [re] the program uses *)

Module Re.

(** A character set: [[^...]] or [\d]. *)
Inductive cset : Type :=
| NoneOf (cs : string)
| Digit.

Definition cset_mem (cs : cset) (c : ascii) : bool :=
  match cs with
  | NoneOf s => negb (PyStr.contains c s)
  | Digit => PyStr.isdigit c
  end.

Inductive regex : Type :=
| Bol                          (* ^ *)
| Eol                          (* $ *)
| Lit (c : ascii)              (* one literal character *)
| Plus (cs : cset)             (* cs+, greedy *)
| Cat (r1 r2 : regex)          (* r1 r2 *)
| Opt (r : regex)              (* (?:r)?, greedy *)
| Grp (i : nat) (r : regex).   (* (r), capturing group number i *)

(** The matcher's position: the number of characters consumed, the text
    still ahead and the groups captured so far. *)
Record mstate : Type := MState {
  pos : nat;
  rest : string;
  groups : gmap nat string
}.

(** [$] without [re.MULTILINE]: at the end of the text, or just before a
    line feed that ends the text. *)
Definition at_eol (s : string) : bool :=
  match s with
  | EmptyString => true
  | String c EmptyString => bool_decide (c = "010"%char)
  | _ => false
  end.

(** The tail of a greedy [cs+]: take as many characters as the set allows
    and give them back one by one while the continuation fails. *)
Fixpoint greedy (cs : cset) (k : mstate -> option (gmap nat string))
    (p : nat) (g : gmap nat string) (s : string) : option (gmap nat string) :=
  match s with
  | String c s' =>
      if cset_mem cs c then
        match greedy cs k (S p) g s' with
        | Some m => Some m
        | None => k (MState p s g)
        end
      else k (MState p s g)
  | EmptyString => k (MState p s g)
  end.

(** Backtracking matcher, with the rest of the pattern as continuation. *)
Fixpoint run (r : regex) (k : mstate -> option (gmap nat string))
    (st : mstate) : option (gmap nat string) :=
  match r with
  | Bol => if decide (pos st = 0%nat) then k st else None
  | Eol => if at_eol (rest st) then k st else None
  | Lit c =>
      match rest st with
      | String c' s' =>
          if decide (c' = c) then k (MState (S (pos st)) s' (groups st))
          else None
      | EmptyString => None
      end
  | Plus cs =>
      match rest st with
      | String c s' =>
          if cset_mem cs c then greedy cs k (S (pos st)) (groups st) s'
          else None
      | EmptyString => None
      end
  | Cat r1 r2 => run r1 (run r2 k) st
  | Opt r' =>
      match run r' k st with
      | Some m => Some m
      | None => k st
      end
  | Grp i r' =>
      run r'
        (fun st' =>
           k (MState (pos st') (rest st')
                (<[i := PyStr.take (pos st' - pos st) (rest st)]> (groups st'))))
        st
  end.

(** [re.match(r, s)]: the groups of the match, or [None]. *)
Definition rmatch (r : regex) (s : string) : option (gmap nat string) :=
  run r (fun st => Some (groups st)) (MState 0 s ∅).

(** Truth value of [re.match(r, s)]. *)
Definition matches (r : regex) (s : string) : bool :=
  match rmatch r s with Some _ => true | None => false end.

End Re.

Import Re.

Infix "⋅⋅" := Cat (at level 60, right associativity).

(** An optional bracketed field, [(?:o([^c]+)c)?], captured as group [i]. *)
Definition bracket (o c : ascii) (i : nat) : regex :=
  Opt (Lit o ⋅⋅ Grp i (Plus (NoneOf (String c EmptyString))) ⋅⋅ Lit c).

(** [^([^(<$1]+)?(?:\(([^)]+)\))?(?:<([^>]+)>)?(?:\$([^$]+)\$)?$] *)
Definition ACTION_PATTERN : regex :=
  Bol ⋅⋅ Opt (Grp 1 (Plus (NoneOf "(<$1")))   (* ([^(<$1]+)?      *)
      ⋅⋅ bracket "(" ")" 2                    (* (?:\(([^)]+)\))? *)
      ⋅⋅ bracket "<" ">" 3                    (* (?:<([^>]+)>)?   *)
      ⋅⋅ bracket "$" "$" 4                    (* (?:\$([^$]+)\$)? *)
      ⋅⋅ Eol.

(** [^t\d+$] *)
Definition TIME_PATTERN : regex :=
  Bol ⋅⋅ Lit "t" ⋅⋅ Plus Digit ⋅⋅ Eol.

(** [x.strip() if x else None] *)
Definition strip_if (o : option string) : option string :=
  match o with
  | Some x => if PyStr.nonempty x then Some (PyStr.strip x) else None
  | None => None
  end.

(** [x if x else None] *)
Definition keep_if (o : option string) : option string :=
  match o with
  | Some x => if PyStr.nonempty x then Some x else None
  | None => None
  end.

Definition extract_features_from_action (phrase : string)
  : option string * option string * option string * option string :=
  match rmatch ACTION_PATTERN (PyStr.strip phrase) with
  | None => (None, None, None, None)
  | Some m =>
      let action := strip_if (m !! 1%nat) in
      let screen := strip_if (m !! 2%nat) in
      let configuration := strip_if (m !! 3%nat) in
      let chaine := PyStr.lower <$> strip_if (m !! 4%nat) in
      (match action with
       | Some a =>
           if PyStr.nonempty a && negb (matches TIME_PATTERN a)
           then Some a else None
       | None => None
       end,
       keep_if screen, keep_if configuration, keep_if chaine)
  end.

(** ** Exceptions, results and the values of an output row *)

Inductive exn : Type :=
| IndexError       (* list index out of range *)
| TypeError        (* None where a list is needed *)
| ValueError       (* int() of a non-number, DataFrame of the wrong width *)
| AssertionError
| OSError.         (* the file cannot be opened *)

Inductive result (A : Type) : Type :=
| Ok (a : A)
| Raise (e : exn).
Arguments Ok {A} a.
Arguments Raise {A} e.

Global Instance result_ret : MRet result := fun A a => Ok a.
Global Instance result_bind : MBind result := fun A B f m =>
  match m with
  | Ok a => f a
  | Raise e => Raise e
  end.

(** [[f(x) for x in l]] where [f] may raise: the first exception ends the
    comprehension. *)
Fixpoint comprehension {A B : Type} (f : A -> result B) (l : list A)
  : result (list B) :=
  match l with
  | [] => Ok []
  | x :: l' =>
      match f x with
      | Ok y =>
          match comprehension f l' with
          | Ok ys => Ok (y :: ys)
          | Raise e => Raise e
          end
      | Raise e => Raise e
      end
  end.

(** A cell of an output row: a string, an int, or the float of a
    quotient. [VMissing] is what pandas puts where a row is too short. *)
Inductive value : Type :=
| VStr (s : string)
| VInt (n : Z)
| VFloat (q : Q)
| VMissing.

(** [pd.DataFrame(data=..., columns=...)] for a list of rows. The table is
    as wide as its longest row and shorter rows are filled up; column
    labels, when given for a table with rows, must be as many as the table
    is wide, else pandas raises [ValueError]. [columns = None] stands for
    the default labels. *)
Record DataFrame : Type := MkDataFrame {
  columns : option (list string);
  values : list (list value)
}.

Definition frame_width (data : list (list value)) : nat :=
  foldr (fun row w => Nat.max (length row) w) 0%nat data.

Definition fill_row (w : nat) (row : list value) : list value :=
  row ++ replicate (w - length row) VMissing.

Definition pd_DataFrame (data : list (list value))
    (cols : option (list string)) : result DataFrame :=
  let w := frame_width data in
  match data, cols with
  | _ :: _, Some cs =>
      if decide (length cs = w)
      then Ok (MkDataFrame cols (fill_row w <$> data))
      else Raise ValueError
  | _, _ => Ok (MkDataFrame cols (fill_row w <$> data))
  end.

(** ** Reading a CSV file *)

(** The files: a path gives the rows [csv.reader] yields for the file, or
    nothing when the file cannot be opened. *)
Definition filesystem : Type := string -> option (list (list string)).

Definition read_csv_file (fs : filesystem) (file_path : string)
    (has_header : bool) : result (list (list string)) :=
  match fs file_path with
  | None => Raise OSError
  | Some rows =>
      if has_header then
        match rows with
        | header :: data => Ok ([header] ++ data)
        | [] => Raise IndexError
        end
      else Ok rows
  end.

(** ** The class [CSVDataProcessor] *)

Record CSVDataProcessor : Type := MkProcessor {
  train_data_csv_path : string;
  data : option (list (list string));
  is_training_data : option bool;
  headers : option (list string);
  possible_actions_set : gset string;
  possible_screens_set : gset string;
  possible_configurations_set : gset string;
  possible_chaines_set : gset string
}.

(** [__init__] *)
Definition __init__ (path : string) : CSVDataProcessor :=
  MkProcessor path None None None ∅ ∅ ∅ ∅.

Definition set_data (d : option (list (list string)))
    (self : CSVDataProcessor) : CSVDataProcessor :=
  MkProcessor (train_data_csv_path self) d (is_training_data self)
    (headers self) (possible_actions_set self) (possible_screens_set self)
    (possible_configurations_set self) (possible_chaines_set self).

Definition set_is_training_data (b : option bool)
    (self : CSVDataProcessor) : CSVDataProcessor :=
  MkProcessor (train_data_csv_path self) (data self) b
    (headers self) (possible_actions_set self) (possible_screens_set self)
    (possible_configurations_set self) (possible_chaines_set self).

Definition set_headers (h : option (list string))
    (self : CSVDataProcessor) : CSVDataProcessor :=
  MkProcessor (train_data_csv_path self) (data self) (is_training_data self)
    h (possible_actions_set self) (possible_screens_set self)
    (possible_configurations_set self) (possible_chaines_set self).

(** [s.add(x)] when [x is not None] *)
Definition add_opt (o : option string) (s : gset string) : gset string :=
  match o with
  | Some x => s ∪ {[x]}
  | None => s
  end.

(** Truth value of the attribute [is_training_data]. *)
Definition truthy (b : option bool) : bool := default false b.

(** One turn of the inner loop of [extract_all_possible_features]. *)
Definition add_features (self : CSVDataProcessor) (action : string)
  : CSVDataProcessor :=
  let '(trimmed_action, screen, configuration, chaine) :=
    extract_features_from_action action in
  MkProcessor (train_data_csv_path self) (data self) (is_training_data self)
    (headers self)
    (add_opt trimmed_action (possible_actions_set self))
    (add_opt screen (possible_screens_set self))
    (add_opt configuration (possible_configurations_set self))
    (add_opt chaine (possible_chaines_set self)).

(** A method: the state of the object goes in, a result and the state left
    come out. The state changes made before an exception stay. *)
Definition method (A : Type) : Type :=
  CSVDataProcessor -> result A * CSVDataProcessor.

Definition extract_all_possible_features : method unit :=
  fun self =>
    let index := if truthy (is_training_data self) then 2%nat else 1%nat in
    match data self with
    | None => (Raise TypeError, self)
    | Some rows =>
        (Ok tt,
         foldl (fun self row => foldl add_features self (drop index row))
           self rows)
    end.

Definition label (kind value : string) : string :=
  "occurrence of " +:+ kind +:+ " '" +:+ value +:+ "' ".

(** The columns after the initial ones, from the four sets. *)
Definition feature_columns (self : CSVDataProcessor) : list string :=
  (label "action" <$> elements (possible_actions_set self))
  ++ (label "screen" <$> elements (possible_screens_set self))
  ++ (label "configuration" <$> elements (possible_configurations_set self))
  ++ (label "chaine" <$> elements (possible_chaines_set self)).

Definition create_headers : method (list string) :=
  fun self =>
    let initial_columns :=
      ["navigator"; "total_actions"; "session_duration"; "avg_speed"] in
    if truthy (is_training_data self) then
      let initial_columns := "user" :: initial_columns in
      match extract_all_possible_features self with
      | (Ok _, self) => (Ok (initial_columns ++ feature_columns self), self)
      | (Raise e, self) => (Raise e, self)
      end
    else (Ok (initial_columns ++ feature_columns self), self).

(** [_initialise] *)
Definition _initialise (fs : filesystem) : method unit :=
  fun self =>
    match read_csv_file fs (train_data_csv_path self) true with
    | Raise e => (Raise e, self)
    | Ok train_data =>
        let self := set_is_training_data (Some true) self in
        let self := set_data (Some train_data) self in
        match create_headers self with
        | (Ok h, self) => (Ok tt, set_headers (Some h) self)
        | (Raise e, self) => (Raise e, self)
        end
    end.

(** [re.match(r'^t\d+$', str(action))] *)
Definition is_time (action : string) : bool := matches TIME_PATTERN action.

(** [d[k] = d.get(k, 0) + 1] when [k is not None] *)
Definition count_opt (o : option string) (d : gmap string Z) : gmap string Z :=
  match o with
  | Some k => <[k := default 0 (d !! k) + 1]> d
  | None => d
  end.

Definition occurrences : Type :=
  gmap string Z * gmap string Z * gmap string Z * gmap string Z.

(** One turn of the counting loop of [extract_data_from_row]. *)
Definition count_features (occ : occurrences) (action : string) : occurrences :=
  let '(possible_actions_occurrences, screens_occurrences,
        configurations_occurrences, chaines_occurrences) := occ in
  let '(trimmed_action, screen, configuration, chaine) :=
    extract_features_from_action action in
  (count_opt trimmed_action possible_actions_occurrences,
   count_opt screen screens_occurrences,
   count_opt configuration configurations_occurrences,
   count_opt chaine chaines_occurrences).

(** [[d.get(x, 0) for x in s]] *)
Definition counts_of (d : gmap string Z) (s : gset string) : list value :=
  (fun x => VInt (default 0 (d !! x))) <$> elements s.

Definition extract_data_from_row (self : CSVDataProcessor)
    (row : list string) : result (list value) :=
  let result_row := [] in
  '(result_row, row) ←
    (if truthy (is_training_data self) then
       match row with
       | user :: row' => Ok (result_row ++ [VStr user], row')
       | [] => Raise IndexError
       end
     else Ok (result_row, row));
  navigator ← match row with
              | navigator :: _ => Ok navigator
              | [] => Raise IndexError
              end;
  let result_row := result_row ++ [VStr navigator] in
  let actions := drop 1 row in
  let all_actions := filter (fun action => is_time action = false) actions in
  let total_actions := Z.of_nat (length all_actions) in
  let result_row := result_row ++ [VInt total_actions] in
  let times := filter (fun action => is_time action = true) actions in
  last_time ← match last times with
              | Some t => Ok t
              | None => Raise IndexError
              end;
  let session_duration := PyStr.tail last_time in
  let result_row := result_row ++ [VStr session_duration] in
  duration ← match PyStr.int session_duration with
             | Some n => Ok n
             | None => Raise ValueError
             end;
  let avg_speed :=
    if decide (0 < duration)
    then VFloat (inject_Z total_actions / inject_Z duration)
    else VInt 0 in
  let result_row := result_row ++ [avg_speed] in
  let '(possible_actions_occurrences, screens_occurrences,
        configurations_occurrences, chaines_occurrences) :=
    foldl count_features (∅, ∅, ∅, ∅) actions in
  Ok (result_row
      ++ counts_of possible_actions_occurrences (possible_actions_set self)
      ++ counts_of screens_occurrences (possible_screens_set self)
      ++ counts_of configurations_occurrences (possible_configurations_set self)
      ++ counts_of chaines_occurrences (possible_chaines_set self)).

Definition process_data (data' : option (list (list string)))
    (is_training_data' : bool) : method DataFrame :=
  fun self =>
    let headers' := headers self in
    let step :=
      if negb is_training_data' then
        match data' with
        | None => (Raise AssertionError, self)
        | Some _ =>
            let self := set_data data' self in
            match headers self with
            | Some h => (Ok (Some (drop 1 h)), self)
            | None => (Raise TypeError, self)
            end
        end
      else (Ok headers', self) in
    match step with
    | (Raise e, self) => (Raise e, self)
    | (Ok headers', self) =>
        let self := set_is_training_data (Some is_training_data') self in
        match data self with
        | None => (Raise TypeError, self)
        | Some rows =>
            (processed_csv_data ← comprehension (extract_data_from_row self) rows;
             pd_DataFrame processed_csv_data headers',
             self)
        end
    end.

Definition get_processed_train_data (fs : filesystem) : method DataFrame :=
  fun self =>
    let step :=
      if bool_decide (data self = None) || bool_decide (headers self = None)
      then _initialise fs self
      else (Ok tt, self) in
    match step with
    | (Raise e, self) => (Raise e, self)
    | (Ok _, self) => process_data None true self
    end.

Definition get_processed_test_data (fs : filesystem)
    (test_data_csv_path : string) : method DataFrame :=
  fun self =>
    let step :=
      if bool_decide (headers self = None)
      then _initialise fs self
      else (Ok tt, self) in
    match step with
    | (Raise e, self) => (Raise e, self)
    | (Ok _, self) =>
        match read_csv_file fs test_data_csv_path true with
        | Raise e => (Raise e, self)
        | Ok test_data =>
            let self := set_is_training_data (Some false) self in
            process_data (Some test_data) false self
        end
    end.

(** ** Shapes of strings the properties speak of *)

(** Every character of [s] satisfies [p]. *)
Fixpoint all_in (p : ascii -> bool) (s : string) : bool :=
  match s with
  | EmptyString => true
  | String c s' => p c && all_in p s'
  end.

(** [s] has none of the characters of [cs]. *)
Definition free_of (cs : string) (s : string) : bool :=
  all_in (fun c => negb (PyStr.contains c cs)) s.

(** One or more digits. *)
Definition digits (s : string) : bool :=
  PyStr.nonempty s && all_in PyStr.isdigit s.

(** The whole of [s] is the letter t followed by one or more digits. *)
Definition t_digits (s : string) : bool :=
  match s with
  | String c ds => bool_decide (c = "t"%char) && digits ds
  | EmptyString => false
  end.

(** The value of a string of digits, read after the value [acc]. *)
Fixpoint digits_value_from (acc : Z) (s : string) : Z :=
  match s with
  | EmptyString => acc
  | String c s' => digits_value_from (10 * acc + PyStr.digit_value c) s'
  end.

(** The value of a string of digits. *)
Definition digits_value (s : string) : Z := digits_value_from 0 s.

(** The line feed as a string. *)
Definition LF : string := String "010"%char EmptyString.

(** The cells of a row after user (training only) and navigator. *)
Definition tokens_of (self : CSVDataProcessor) (row : list string)
  : list string :=
  drop (if truthy (is_training_data self) then 2 else 1)%nat row.

(** The four fields of a parsed action. *)
Definition action_of (phrase : string) : option string :=
  (extract_features_from_action phrase).1.1.1.
Definition screen_of (phrase : string) : option string :=
  (extract_features_from_action phrase).1.1.2.
Definition configuration_of (phrase : string) : option string :=
  (extract_features_from_action phrase).1.2.
Definition chaine_of (phrase : string) : option string :=
  (extract_features_from_action phrase).2.

(** The number of cells of [actions] whose field [f] parses to [x]. *)
Definition occurrences_in (f : string -> option string) (x : string)
    (actions : list string) : Z :=
  Z.of_nat (length (filter (fun action => f action = Some x) actions)).

(** [x if x and not re.match(r'^t\d+$', x) else None] *)
Definition action_or_none (x : string) : option string :=
  if PyStr.nonempty x && negb (is_time x) then Some x else None.

(** [x if x else None] *)
Definition text_or_none (x : string) : option string :=
  if PyStr.nonempty x then Some x else None.

(** The repetition [cs+] cannot go past the head of [r]. *)
Definition stops (cs : cset) (r : string) : bool :=
  match r with
  | EmptyString => true
  | String c _ => negb (cset_mem cs c)
  end.

(** The brackets and the end of [ACTION_PATTERN]. *)
Definition FIELDS : regex :=
  bracket "(" ")" 2 ⋅⋅ bracket "<" ">" 3 ⋅⋅ bracket "$" "$" 4 ⋅⋅ Eol.

(** The last continuation of a match: the groups captured. *)
Definition done_ : mstate -> option (gmap nat string) :=
  fun st => Some (groups st).

(** The text [A(S)<C>$Ch$]. *)
Definition phrase_of (A S C Ch : string) : string :=
  A +:+ "(" +:+ S +:+ ")<" +:+ C +:+ ">$" +:+ Ch +:+ "$".

(** The counts of an output row, as numbers of cells: one per member of
    each of the four sets. *)
Definition feature_counts (self : CSVDataProcessor) (actions : list string)
  : list value :=
  ((fun x => VInt (occurrences_in action_of x actions))
     <$> elements (possible_actions_set self))
  ++ ((fun x => VInt (occurrences_in screen_of x actions))
        <$> elements (possible_screens_set self))
  ++ ((fun x => VInt (occurrences_in configuration_of x actions))
        <$> elements (possible_configurations_set self))
  ++ ((fun x => VInt (occurrences_in chaine_of x actions))
        <$> elements (possible_chaines_set self)).

(** The values a field takes over the token cells of some rows. *)
Definition parsed_set (f : string -> option string) (index : nat)
    (rows : list (list string)) : gset string :=
  list_to_set (omap f (concat (drop index <$> rows))).

(** The four sets of a processor. *)
Definition vocabulary (self : CSVDataProcessor)
  : gset string * gset string * gset string * gset string :=
  (possible_actions_set self, possible_screens_set self,
   possible_configurations_set self, possible_chaines_set self).

(** The processor after the loops of [extract_all_possible_features]. *)
Definition scan (index : nat) (self : CSVDataProcessor)
    (rows : list (list string)) : CSVDataProcessor :=
  foldl (fun self row => foldl add_features self (drop index row)) self rows.

(** [times[-1]]: the last cell of [actions] the time pattern matches. *)
Definition last_time (actions : list string) : option string :=
  last (filter (fun action => is_time action = true) actions).

(** The cell [c] has no more digits than [int] converts. *)
Definition within_limit (c : string) : bool :=
  bool_decide (PyStr.digit_count c <= PyStr.max_str_digits).

(** The exception the projection of a row raises, if any: [IndexError]
    when the time pattern matches none of its token cells, [ValueError]
    when the last cell it matches has too many digits. *)
Definition row_error (training : bool) (row : list string) : option exn :=
  match last_time (drop (if training then 2 else 1)%nat row) with
  | None => Some IndexError
  | Some c => if within_limit c then None else Some ValueError
  end.

(** A row is projectable: the time pattern matches one of its token cells,
    and the last cell it matches has no more digits than [int] converts. *)
Definition projectable (training : bool) (row : list string) : bool :=
  match row_error training row with
  | None => true
  | Some _ => false
  end.

(** The text of [n] characters [c]. *)
Definition repeat_char (n : positive) (c : ascii) : string :=
  Pos.iter (String c) EmptyString n.

(** A time cell of 4301 digits, one more than [int] converts: the letter t
    and 4301 zeros. *)
Definition long_time : string := String "t" (repeat_char 4301 "0").

(** The initial columns. *)
Definition base_columns : list string :=
  ["navigator"; "total_actions"; "session_duration"; "avg_speed"].

(** The state [_initialise] leaves on a file with rows. *)
Definition initialised (self : CSVDataProcessor) (rows : list (list string))
  : CSVDataProcessor :=
  let scanned :=
    scan 2 (set_data (Some rows) (set_is_training_data (Some true) self)) rows in
  set_headers (Some ("user" :: base_columns ++ feature_columns scanned)) scanned.

(** The continuation [k] leaves group [j] as it finds it. *)
Definition keeps (j : nat) (k : mstate -> option (gmap nat string)) : Prop :=
  forall p s g m, k (MState p s g) = Some m -> m !! j = g !! j.

(** Two files with one row each, and a file without rows. *)
Definition example_files : filesystem := fun path =>
  if decide (path = "train.csv")
  then Some [["u1"; "chrome"; "t5"; "click(home)"; "t12"]]
  else if decide (path = "test.csv")
  then Some [["firefox"; "scroll(page)"; "t7"]]
  else if decide (path = "empty.csv") then Some []
  else None.

(** The processor inside [with CSVDataProcessor("train.csv") as processor]. *)
Definition example_processor : CSVDataProcessor :=
  (_initialise example_files (__init__ "train.csv")).2.

(** ** The model at work *)

Example parse_full :
  extract_features_from_action "clic  (home)<cfg A>$ChA$"
  = (Some "clic", Some "home", Some "cfg A", Some "cha").
Proof. vm_compute. reflexivity. Qed.

Example parse_screen_only :
  extract_features_from_action "(home)" = (None, Some "home", None, None).
Proof. vm_compute. reflexivity. Qed.

Example parse_empty_brackets :
  extract_features_from_action "clic()" = (None, None, None, None).
Proof. vm_compute. reflexivity. Qed.

Example time_cells :
  is_time "t12" = true /\ is_time ("t12" +:+ LF) = true
  /\ is_time "t" = false /\ is_time "t12a" = false /\ is_time " t12" = false.
Proof. repeat split; vm_compute; reflexivity. Qed.

Example int_of_duration :
  PyStr.int "012" = Some 12 /\ PyStr.int ("5" +:+ LF) = Some 5
  /\ PyStr.int "1_000" = Some 1000 /\ PyStr.int "" = None.
Proof. repeat split; vm_compute; reflexivity. Qed.

(** The limit of [int]: 4300 digits are converted, 4301 are not, zeros
    included; the sign does not count. *)
Example int_limit :
  PyStr.int (repeat_char 4300 "0") = Some 0
  /\ PyStr.int (repeat_char 4301 "0") = None
  /\ PyStr.int (repeat_char 4301 "9") = None
  /\ PyStr.int (String "-" (repeat_char 4300 "0")) = Some 0
  /\ within_limit long_time = false.
Proof. repeat split; vm_compute; reflexivity. Qed.

(** ** Strings: append, strip *)

Section StringFacts.

Lemma append_cons c (s t : string) : String c s +:+ t = String c (s +:+ t).
Proof. reflexivity. Qed.

Lemma append_nil_r (s : string) : s +:+ "" = s.
Proof. induction s as [|c s IH]; [done|]. by rewrite append_cons, IH. Qed.

Lemma append_assoc (s t u : string) : (s +:+ t) +:+ u = s +:+ t +:+ u.
Proof. induction s as [|c s IH]; [done|]. by rewrite !append_cons, IH. Qed.

Lemma take_append (a r : string) : PyStr.take (String.length a) (a +:+ r) = a.
Proof. induction a as [|c a IH]; [by destruct r|]. rewrite append_cons. simpl. by rewrite IH. Qed.

Lemma all_in_app p (s t : string) :
  all_in p (s +:+ t) = all_in p s && all_in p t.
Proof.
  induction s as [|c s IH]; [done|].
  rewrite append_cons. simpl. rewrite IH. by destruct (p c).
Qed.

Lemma all_in_impl (p q : ascii -> bool) (s : string) :
  (forall c, p c = true -> q c = true) -> all_in p s = true -> all_in q s = true.
Proof.
  intros Hpq. induction s as [|c s IH]; [done|]. simpl.
  intros [Hc Hs]%andb_prop. rewrite (Hpq _ Hc). by apply IH.
Qed.

Lemma lstrip_app (a y : string) :
  PyStr.lstrip y = y -> PyStr.nonempty y = true ->
  PyStr.lstrip (a +:+ y) = PyStr.lstrip a +:+ y.
Proof.
  intros Hy Hne. induction a as [|c a IH]; [done|].
  rewrite append_cons. simpl. destruct (PyStr.isspace c); [done|].
  by rewrite append_cons.
Qed.

Lemma lstrip_idemp (s : string) : PyStr.lstrip (PyStr.lstrip s) = PyStr.lstrip s.
Proof.
  induction s as [|c s IH]; [done|]. simpl.
  destruct (PyStr.isspace c) eqn:E; [done|]. simpl. by rewrite E.
Qed.

Lemma lstrip_head (s : string) :
  match PyStr.lstrip s with
  | String c _ => PyStr.isspace c = false
  | EmptyString => True
  end.
Proof.
  induction s as [|c s IH]; [done|]. simpl.
  by destruct (PyStr.isspace c) eqn:E.
Qed.

Lemma rstrip_app_last (z : string) c :
  PyStr.isspace c = false ->
  PyStr.rstrip (z +:+ String c "") = z +:+ String c "".
Proof.
  intros Hc. induction z as [|d z IH]; simpl.
  - change ("" +:+ String c "") with (String c ""). simpl. by rewrite Hc.
  - rewrite append_cons. simpl. rewrite IH.
    destruct z; by rewrite ?append_cons.
Qed.

Lemma rstrip_head (s : string) c t :
  PyStr.isspace c = false -> s = String c t ->
  exists t', PyStr.rstrip s = String c t'.
Proof.
  intros Hc ->. simpl. destruct (PyStr.rstrip t); rewrite ?Hc; eauto.
Qed.

Lemma rstrip_no_space (s : string) :
  all_in (fun c => negb (PyStr.isspace c)) s = true -> PyStr.rstrip s = s.
Proof.
  induction s as [|c s IH]; [done|]. simpl.
  intros [Hc Hs]%andb_prop. rewrite (IH Hs).
  destruct s; [|done]. by apply negb_true_iff in Hc as ->.
Qed.

Lemma lstrip_no_space (s : string) :
  all_in (fun c => negb (PyStr.isspace c)) s = true -> PyStr.lstrip s = s.
Proof.
  destruct s as [|c s]; [done|]. simpl.
  intros [Hc _]%andb_prop. by apply negb_true_iff in Hc as ->.
Qed.

Lemma strip_no_space (s : string) :
  all_in (fun c => negb (PyStr.isspace c)) s = true -> PyStr.strip s = s.
Proof.
  intros H. unfold PyStr.strip. by rewrite lstrip_no_space, rstrip_no_space.
Qed.

(** A string of non-blank characters followed by one line feed loses the
    line feed. *)
Lemma rstrip_no_space_LF (s : string) :
  all_in (fun c => negb (PyStr.isspace c)) s = true ->
  PyStr.rstrip (s +:+ LF) = s.
Proof.
  induction s as [|c s IH]; [done|].
  rewrite append_cons. simpl. intros [Hc Hs]%andb_prop. rewrite (IH Hs).
  destruct s; [|done]. by apply negb_true_iff in Hc as ->.
Qed.

Lemma strip_nonempty_iff (s : string) :
  PyStr.nonempty (PyStr.strip s) = PyStr.nonempty (PyStr.lstrip s).
Proof.
  unfold PyStr.strip. pose proof (lstrip_head s) as H.
  destruct (PyStr.lstrip s) as [|c t]; [done|].
  destruct (rstrip_head (String c t) c t H eq_refl) as [t' ->]. done.
Qed.

Lemma isdigit_not_space c : PyStr.isdigit c = true -> negb (PyStr.isspace c) = true.
Proof.
  destruct c as [[] [] [] [] [] [] [] []]; vm_compute; congruence.
Qed.

End StringFacts.

(** ** The matcher: greedy repetition, groups, brackets *)

Section Matcher.

Implicit Types (k : mstate -> option (gmap nat string)) (g m : gmap nat string).

Lemma greedy_some cs k g m (a r : string) : forall p,
  all_in (cset_mem cs) a = true -> stops cs r = true ->
  k (MState (p + String.length a) r g) = Some m ->
  greedy cs k p g (a +:+ r) = Some m.
Proof.
  induction a as [|c a IH]; intros p Ha Hr Hk.
  - change ("" +:+ r) with r. simpl in Hk. rewrite Nat.add_0_r in Hk.
    destruct r as [|c r]; simpl; [done|].
    simpl in Hr. apply negb_true_iff in Hr. by rewrite Hr.
  - rewrite append_cons. simpl in *. apply andb_prop in Ha as [Hc Ha].
    rewrite Hc, (IH (S p)); [done|done|done|].
    by rewrite Nat.add_succ_comm.
Qed.

Lemma greedy_none cs k g (a r : string) : forall p,
  all_in (cset_mem cs) a = true -> stops cs r = true ->
  (forall a1 a2 : string, a = a1 +:+ a2 ->
     k (MState (p + String.length a1) (a2 +:+ r) g) = None) ->
  greedy cs k p g (a +:+ r) = None.
Proof.
  induction a as [|c a IH]; intros p Ha Hr Hk.
  - specialize (Hk "" "" eq_refl). simpl in Hk. rewrite Nat.add_0_r in Hk.
    change ("" +:+ r) with r in *.
    destruct r as [|c r]; simpl; [done|].
    simpl in Hr. apply negb_true_iff in Hr. by rewrite Hr.
  - rewrite append_cons. simpl in *. apply andb_prop in Ha as [Hc Ha].
    rewrite Hc, (IH (S p)); [| done | done |].
    + specialize (Hk "" (String c a) eq_refl). simpl in Hk.
      by rewrite Nat.add_0_r in Hk.
    + intros a1 a2 ->. specialize (Hk (String c a1) a2 eq_refl).
      simpl in Hk. by rewrite Nat.add_succ_comm.
Qed.

Lemma greedy_inv cs k g m (s : string) : forall p,
  greedy cs k p g s = Some m ->
  exists a r : string, s = a +:+ r /\ all_in (cset_mem cs) a = true
    /\ k (MState (p + String.length a) r g) = Some m.
Proof.
  induction s as [|c s IH]; intros p H; simpl in H.
  - exists "", "". simpl. by rewrite Nat.add_0_r.
  - destruct (cset_mem cs c) eqn:Hc.
    + destruct (greedy cs k (S p) g s) as [m'|] eqn:Hg.
      * simplify_eq. destruct (IH _ Hg) as (a & r & -> & Ha & Hk).
        exists (String c a), r. simpl. rewrite Hc, Ha.
        by rewrite <- Nat.add_succ_comm.
      * exists "", (String c s). simpl. by rewrite Nat.add_0_r.
    + exists "", (String c s). simpl. by rewrite Nat.add_0_r.
Qed.

Lemma run_plus_some cs k p g m (a r : string) :
  PyStr.nonempty a = true ->
  all_in (cset_mem cs) a = true -> stops cs r = true ->
  k (MState (p + String.length a) r g) = Some m ->
  run (Plus cs) k (MState p (a +:+ r) g) = Some m.
Proof.
  destruct a as [|c a]; [done|]. intros _ Ha Hr Hk.
  rewrite append_cons. simpl in *. apply andb_prop in Ha as [Hc Ha].
  rewrite Hc. apply greedy_some; [done|done|].
  by rewrite Nat.add_succ_comm.
Qed.

Lemma run_plus_none cs k p g (a r : string) :
  all_in (cset_mem cs) a = true -> stops cs r = true ->
  (forall a1 a2 : string, a = a1 +:+ a2 ->
     k (MState (p + String.length a1) (a2 +:+ r) g) = None) ->
  run (Plus cs) k (MState p (a +:+ r) g) = None.
Proof.
  intros Ha Hr Hk. destruct a as [|c a].
  - change ("" +:+ r) with r. destruct r as [|c r]; simpl; [done|].
    simpl in Hr. apply negb_true_iff in Hr. by rewrite Hr.
  - rewrite append_cons. simpl in *. apply andb_prop in Ha as [Hc Ha].
    rewrite Hc. apply greedy_none; [done|done|].
    intros a1 a2 ->. specialize (Hk (String c a1) a2 eq_refl).
    simpl in Hk. by rewrite Nat.add_succ_comm.
Qed.

Lemma run_plus_inv cs k p g m (s : string) :
  run (Plus cs) k (MState p s g) = Some m ->
  exists a r : string, s = a +:+ r /\ PyStr.nonempty a = true
    /\ all_in (cset_mem cs) a = true
    /\ k (MState (p + String.length a) r g) = Some m.
Proof.
  simpl. destruct s as [|c s]; [done|].
  destruct (cset_mem cs c) eqn:Hc; [|done]. intros H.
  destruct (greedy_inv _ _ _ _ _ _ H) as (a & r & -> & Ha & Hk).
  exists (String c a), r. simpl. rewrite Hc, Ha.
  rewrite <- Nat.add_succ_comm. done.
Qed.

Lemma run_grp_plus_some i cs k p g m (a r : string) :
  PyStr.nonempty a = true ->
  all_in (cset_mem cs) a = true -> stops cs r = true ->
  k (MState (p + String.length a) r (<[i := a]> g)) = Some m ->
  run (Grp i (Plus cs)) k (MState p (a +:+ r) g) = Some m.
Proof.
  intros Hne Ha Hr Hk. cbn [run].
  apply run_plus_some; [done..|]. cbn [pos rest groups].
  replace (p + String.length a - p)%nat with (String.length a) by lia.
  by rewrite take_append.
Qed.

Lemma run_grp_plus_inv i cs k p g m (s : string) :
  run (Grp i (Plus cs)) k (MState p s g) = Some m ->
  exists a r : string, s = a +:+ r /\ PyStr.nonempty a = true
    /\ all_in (cset_mem cs) a = true
    /\ k (MState (p + String.length a) r (<[i := a]> g)) = Some m.
Proof.
  cbn [run]. intros H.
  destruct (run_plus_inv _ _ _ _ _ _ H) as (a & r & -> & Hne & Ha & Hk).
  exists a, r. repeat split; try done. cbn [pos rest groups] in Hk.
  replace (p + String.length a - p)%nat with (String.length a) in Hk by lia.
  by rewrite take_append in Hk.
Qed.

Lemma run_cat r1 r2 k st : run (r1 ⋅⋅ r2) k st = run r1 (run r2 k) st.
Proof. reflexivity. Qed.

Lemma run_opt r k st :
  run (Opt r) k st = match run r k st with Some m => Some m | None => k st end.
Proof. reflexivity. Qed.

Lemma run_lit (c : ascii) k p g (s : string) :
  run (Lit c) k (MState p (String c s) g) = k (MState (S p) s g).
Proof. simpl. by rewrite decide_True. Qed.

(** A bracket that is there, with a non-empty body free of the closing
    character, is taken. *)
Lemma run_bracket_some (o c : ascii) i k p g m (b r : string) :
  PyStr.nonempty b = true -> free_of (String c "") b = true ->
  (forall q, k (MState q r (<[i := b]> g)) = Some m) ->
  run (bracket o c i) k (MState p (String o (b +:+ String c r)) g) = Some m.
Proof.
  intros Hne Hb Hk. unfold bracket.
  rewrite run_opt, run_cat, run_lit, run_cat.
  rewrite (run_grp_plus_some i (NoneOf (String c "")) _ (S p) g m b (String c r));
    try done.
  - simpl. by rewrite decide_True.
  - rewrite run_lit. apply Hk.
Qed.

(** A bracket is skipped when the text does not open it. *)
Lemma run_bracket_skip (o c : ascii) i k p g (s : string) :
  match s with String h _ => h <> o | EmptyString => True end ->
  run (bracket o c i) k (MState p s g) = k (MState p s g).
Proof.
  intros Hs. unfold bracket. cbn [run rest pos groups].
  destruct s as [|h s]; [done|]. by rewrite decide_False.
Qed.

Lemma run_lit_inv (c : ascii) k p g m (s : string) :
  run (Lit c) k (MState p s g) = Some m ->
  exists s' : string, s = String c s' /\ k (MState (S p) s' g) = Some m.
Proof.
  simpl. destruct s as [|c' s]; [done|].
  destruct (decide (c' = c)) as [->|]; [|done]. eauto.
Qed.

(** What a bracket can have done when the match went through. *)
Lemma run_bracket_inv (o c : ascii) i k p g m (s : string) :
  run (bracket o c i) k (MState p s g) = Some m ->
  k (MState p s g) = Some m
  \/ exists (b r : string) q, s = String o (b +:+ String c r)
       /\ PyStr.nonempty b = true
       /\ all_in (cset_mem (NoneOf (String c ""))) b = true
       /\ k (MState q r (<[i := b]> g)) = Some m.
Proof.
  unfold bracket. rewrite run_opt. intros H.
  destruct (run (Lit o ⋅⋅ Grp i (Plus (NoneOf (String c ""))) ⋅⋅ Lit c) k
              (MState p s g)) as [m'|] eqn:He; [|by left].
  simplify_eq. right. rewrite run_cat in He.
  apply run_lit_inv in He as (s' & -> & He). rewrite run_cat in He.
  apply run_grp_plus_inv in He as (b & r & -> & Hne & Hb & Hk).
  apply run_lit_inv in Hk as (r' & -> & Hk). eauto 10.
Qed.

End Matcher.

(** ** The two patterns of the program *)

Section Patterns.

Implicit Types (k : mstate -> option (gmap nat string)) (g m : gmap nat string).

Lemma run_bol k (s : string) g :
  run Bol k (MState 0 s g) = k (MState 0 s g).
Proof. reflexivity. Qed.

Lemma run_eol k p (s : string) g :
  run Eol k (MState p s g) = if at_eol s then k (MState p s g) else None.
Proof. reflexivity. Qed.

Lemma run_grp i r k st :
  run (Grp i r) k st
  = run r (fun st' =>
             k (MState (pos st') (rest st')
                  (<[i := PyStr.take (pos st' - pos st) (rest st)]> (groups st'))))
      st.
Proof. reflexivity. Qed.

Lemma run_grp_plus_stop i cs k p g (s : string) :
  stops cs s = true -> run (Grp i (Plus cs)) k (MState p s g) = None.
Proof.
  intros Hs. simpl. destruct s as [|c s]; [done|].
  simpl in Hs. apply negb_true_iff in Hs. by rewrite Hs.
Qed.

Lemma rmatch_action_unfold (x : string) :
  rmatch ACTION_PATTERN x
  = match run (Grp 1 (Plus (NoneOf "(<$1"))) (run FIELDS done_) (MState 0 x ∅) with
    | Some m => Some m
    | None => run FIELDS done_ (MState 0 x ∅)
    end.
Proof. reflexivity. Qed.

(** The three brackets in a row, each with a body. *)
Lemma run_fields_full p g (S C Ch : string) :
  PyStr.nonempty S = true -> PyStr.nonempty C = true ->
  PyStr.nonempty Ch = true ->
  free_of ")" S = true -> free_of ">" C = true -> free_of "$" Ch = true ->
  run FIELDS done_
    (MState p (String "(" (S +:+ String ")" (String "<" (C +:+ String ">"
                 (String "$" (Ch +:+ String "$" "")))))) g)
  = Some (<[4%nat := Ch]> (<[3%nat := C]> (<[2%nat := S]> g))).
Proof.
  intros HS HC HCh FS FC FCh. unfold FIELDS.
  rewrite run_cat. apply run_bracket_some; [done..|]. intros q1.
  rewrite run_cat. apply run_bracket_some; [done..|]. intros q2.
  rewrite run_cat. apply run_bracket_some; [done..|]. intros q3.
  reflexivity.
Qed.

(** No bracket and no end of text: the fields fail. *)
Lemma run_fields_fail k p g (h : ascii) (t : string) :
  h <> "("%char -> h <> "<"%char -> h <> "$"%char ->
  at_eol (String h t) = false ->
  run FIELDS k (MState p (String h t) g) = None.
Proof.
  intros H1 H2 H3 He. unfold FIELDS.
  rewrite run_cat, run_bracket_skip by done.
  rewrite run_cat, run_bracket_skip by done.
  rewrite run_cat, run_bracket_skip by done.
  by rewrite run_eol, He.
Qed.

Lemma run_fields_end p g : run FIELDS done_ (MState p "" g) = Some g.
Proof. reflexivity. Qed.

Lemma not_special (c : ascii) :
  cset_mem (NoneOf "(<$1") c = true ->
  c <> "("%char /\ c <> "<"%char /\ c <> "$"%char /\ c <> "1"%char.
Proof.
  simpl. intros H%negb_true_iff.
  repeat case_decide; naive_solver.
Qed.

(** A text whose leading run of action characters is followed by the
    digit 1 does not match at all. *)
Lemma rmatch_action_one (a r : string) :
  free_of "(<$1" a = true ->
  rmatch ACTION_PATTERN (a +:+ String "1" r) = None.
Proof.
  intros Ha. rewrite rmatch_action_unfold.
  assert (forall p g (a2 : string), all_in (cset_mem (NoneOf "(<$1")) a2 = true ->
            run FIELDS done_ (MState p (a2 +:+ String "1" r) g) = None) as Hf.
  { intros p g [|h a2] Ha2.
    - apply run_fields_fail; try done. by destruct r.
    - rewrite append_cons. simpl in Ha2. apply andb_prop in Ha2 as [Hh _].
      apply not_special in Hh as (? & ? & ? & ?).
      apply run_fields_fail; try done. simpl. by destruct a2. }
  rewrite (Hf 0%nat ∅ a Ha), run_grp.
  rewrite run_plus_none; [done | done | done |].
  intros a1 a2 ->. cbn [pos rest groups].
  apply Hf. unfold free_of in Ha. rewrite all_in_app in Ha.
  by apply andb_prop in Ha as [_ ?].
Qed.

(** An action alone. *)
Lemma rmatch_action_bare (a : string) :
  PyStr.nonempty a = true -> free_of "(<$1" a = true ->
  rmatch ACTION_PATTERN a = Some {[ 1%nat := a ]}.
Proof.
  intros Hne Ha. rewrite rmatch_action_unfold.
  rewrite <- (append_nil_r a) at 1 2.
  rewrite (run_grp_plus_some 1 _ _ 0 ∅ (<[1%nat := a]> ∅) a ""); try done.
  by rewrite append_nil_r.
Qed.

(** The full shape: action, screen, configuration and chaine. *)
Lemma rmatch_action_full (a S C Ch : string) :
  free_of "(<$1" a = true ->
  PyStr.nonempty S = true -> PyStr.nonempty C = true ->
  PyStr.nonempty Ch = true ->
  free_of ")" S = true -> free_of ">" C = true -> free_of "$" Ch = true ->
  rmatch ACTION_PATTERN
    (a +:+ String "(" (S +:+ String ")" (String "<" (C +:+ String ">"
                 (String "$" (Ch +:+ String "$" ""))))))
  = Some (<[4%nat := Ch]> (<[3%nat := C]> (<[2%nat := S]>
            (if PyStr.nonempty a then {[ 1%nat := a ]} else ∅)))).
Proof.
  intros Ha HS HC HCh FS FC FCh. rewrite rmatch_action_unfold.
  destruct a as [|c a].
  - change ("" +:+ ?x) with x. rewrite run_grp_plus_stop by done.
    by rewrite run_fields_full.
  - cbn [PyStr.nonempty].
    erewrite run_grp_plus_some; [done | done | done | done |].
    by rewrite run_fields_full.
Qed.

(** The time pattern: t, digits, and possibly one line feed. *)
Lemma is_time_t_digits (s : string) : t_digits s = true -> is_time s = true.
Proof.
  destruct s as [|c ds]; [done|]. simpl.
  intros [->%bool_decide_eq_true [Hne Hd]%andb_prop]%andb_prop.
  unfold is_time, matches, rmatch, TIME_PATTERN.
  rewrite run_cat, run_bol, run_cat, run_lit, run_cat.
  rewrite <- (append_nil_r ds).
  by erewrite run_plus_some.
Qed.

Lemma is_time_t_digits_LF (s : string) :
  t_digits s = true -> is_time (s +:+ LF) = true.
Proof.
  destruct s as [|c ds]; [done|]. simpl.
  intros [->%bool_decide_eq_true [Hne Hd]%andb_prop]%andb_prop.
  unfold is_time, matches, rmatch, TIME_PATTERN. rewrite append_cons.
  rewrite run_cat, run_bol, run_cat, run_lit, run_cat.
  by erewrite run_plus_some.
Qed.

Lemma is_time_inv (s : string) :
  is_time s = true ->
  exists ds : string, digits ds = true
    /\ (s = String "t" ds \/ s = String "t" (ds +:+ LF)).
Proof.
  unfold is_time, matches, rmatch, TIME_PATTERN.
  destruct (run _ _ _) as [m|] eqn:H; [|done]. intros _.
  rewrite run_cat, run_bol, run_cat in H.
  apply run_lit_inv in H as (s' & -> & H). rewrite run_cat in H.
  apply run_plus_inv in H as (ds & r & -> & Hne & Hd & H).
  rewrite run_eol in H. exists ds. split.
  { unfold digits. by rewrite Hne. }
  destruct r as [|c [|??]]; simpl in H; try done.
  - left. by rewrite append_nil_r.
  - right. by case_bool_decide; simplify_eq.
Qed.

End Patterns.

(** ** The token parser *)

Section Parser.

Lemma all_in_lstrip p (s : string) :
  all_in p s = true -> all_in p (PyStr.lstrip s) = true.
Proof.
  induction s as [|c s IH]; [done|]. simpl.
  intros [Hc Hs]%andb_prop. destruct (PyStr.isspace c); [by apply IH|].
  simpl. by rewrite Hc, Hs.
Qed.

Lemma all_in_rstrip p (s : string) :
  all_in p s = true -> all_in p (PyStr.rstrip s) = true.
Proof.
  induction s as [|c s IH]; [done|]. simpl.
  intros [Hc Hs]%andb_prop. specialize (IH Hs).
  destruct (PyStr.rstrip s) eqn:E.
  - destruct (PyStr.isspace c); [done|]. simpl. by rewrite Hc.
  - simpl in IH |- *. by rewrite Hc, IH.
Qed.

Lemma all_in_strip p (s : string) :
  all_in p s = true -> all_in p (PyStr.strip s) = true.
Proof. intros H. by apply all_in_rstrip, all_in_lstrip. Qed.

Lemma all_in_and (p q r : ascii -> bool) (s : string) :
  (forall c, p c = true -> q c = true -> r c = true) ->
  all_in p s = true -> all_in q s = true -> all_in r s = true.
Proof.
  intros Hpq. induction s as [|c s IH]; [done|]. simpl.
  intros [Hc Hs]%andb_prop [Hc' Hs']%andb_prop.
  by rewrite (Hpq _ Hc Hc'), IH.
Qed.

Lemma rstrip_fix_app (z y : string) :
  PyStr.rstrip y = y -> PyStr.nonempty y = true ->
  PyStr.rstrip (z +:+ y) = z +:+ y.
Proof.
  intros Hy Hne. induction z as [|d z IH]; [done|].
  rewrite append_cons. simpl. rewrite IH.
  destruct z; [by destruct y|by rewrite append_cons].
Qed.

Lemma rstrip_fix_cons c (y : string) :
  PyStr.rstrip y = y -> PyStr.nonempty y = true ->
  PyStr.rstrip (String c y) = String c y.
Proof. intros Hy Hne. simpl. rewrite Hy. by destruct y. Qed.

(** Any string either avoids a character or splits at its first
    occurrence. *)
Lemma split_at (c : ascii) (s : string) :
  free_of (String c "") s = true
  \/ exists a r : string, s = a +:+ String c r /\ free_of (String c "") a = true.
Proof.
  induction s as [|d s IH]; [by left|].
  destruct (decide (d = c)) as [->|Hne].
  - right. by exists "", s.
  - destruct IH as [IH|(a & r & -> & Ha)].
    + left. unfold free_of in *. cbn [all_in].
      apply andb_true_intro. split; [|done]. simpl. by rewrite decide_False.
    + right. exists (String d a), r. split; [done|].
      unfold free_of in *. cbn [all_in].
      apply andb_true_intro. split; [|done]. simpl. by rewrite decide_False.
Qed.

Lemma strip_phrase_of (A S C Ch : string) :
  PyStr.strip (phrase_of A S C Ch)
  = PyStr.lstrip A +:+ String "(" (S +:+ String ")" (String "<" (C +:+ String ">"
      (String "$" (Ch +:+ String "$" ""))))).
Proof.
  unfold PyStr.strip, phrase_of.
  change (A +:+ "(" +:+ S +:+ ")<" +:+ C +:+ ">$" +:+ Ch +:+ "$")
    with (A +:+ String "(" (S +:+ String ")" (String "<" (C +:+ String ">"
            (String "$" (Ch +:+ String "$" "")))))).
  rewrite lstrip_app by done.
  apply rstrip_fix_app; [|done].
  apply rstrip_fix_cons; [|by destruct S].
  apply rstrip_fix_app; [|done].
  do 2 (apply rstrip_fix_cons; [|by destruct C]).
  apply rstrip_fix_app; [|done].
  do 2 (apply rstrip_fix_cons; [|by destruct Ch]).
  by apply rstrip_fix_app.
Qed.

Lemma free_of_sub (cs cs' s : string) :
  (forall c, PyStr.contains c cs' = true -> PyStr.contains c cs = true) ->
  free_of cs s = true -> free_of cs' s = true.
Proof.
  intros H. apply all_in_impl. intros c Hc%negb_true_iff.
  apply negb_true_iff. destruct (PyStr.contains c cs') eqn:E; [|done].
  by rewrite (H _ E) in Hc.
Qed.

Lemma strip_of_lstrip (s : string) :
  PyStr.strip (PyStr.lstrip s) = PyStr.strip s.
Proof. unfold PyStr.strip. by rewrite lstrip_idemp. Qed.

Lemma lower_nonempty (s : string) :
  PyStr.nonempty (PyStr.lower s) = PyStr.nonempty s.
Proof. by destruct s. Qed.

(** The shape A(S)<C>$Ch$ with non-empty S, C and Ch is parsed into its
    four parts, each stripped, the chaine in lower case; a part that is
    empty once stripped, and an action of the form t-number, is None. *)
Lemma extract_features_phrase_of (A S C Ch : string) :
  free_of "()<>$" A = true -> free_of "1" A = true ->
  free_of "()<>$" S = true -> free_of "()<>$" C = true ->
  free_of "()<>$" Ch = true ->
  PyStr.nonempty S = true -> PyStr.nonempty C = true ->
  PyStr.nonempty Ch = true ->
  extract_features_from_action (phrase_of A S C Ch)
  = (action_or_none (PyStr.strip A), text_or_none (PyStr.strip S),
     text_or_none (PyStr.strip C),
     text_or_none (PyStr.lower (PyStr.strip Ch))).
Proof.
  intros FA F1 FS FC FCh HS HC HCh.
  unfold extract_features_from_action. rewrite strip_phrase_of.
  assert (free_of "(<$1" (PyStr.lstrip A) = true) as FA'.
  { apply all_in_lstrip.
    apply (all_in_and (fun c => negb (PyStr.contains c "()<>$"))
                      (fun c => negb (PyStr.contains c "1"))); [|done..].
    intros c. simpl. repeat case_decide; done. }
  rewrite rmatch_action_full; try done.
  2-4: eapply free_of_sub; [|eassumption]; intros c; simpl;
       repeat case_decide; done.
  rewrite !lookup_insert_ne by done.
  rewrite lookup_insert_eq, lookup_insert_ne, lookup_insert_eq by done.
  rewrite lookup_insert_eq.
  unfold strip_if, keep_if, text_or_none. rewrite HS, HC, HCh. cbn [fmap option_fmap option_map].
  rewrite lower_nonempty.
  do 3 f_equal.
  unfold action_or_none, is_time.
  pose proof (strip_nonempty_iff A) as Hne.
  destruct (PyStr.lstrip A) as [|c a] eqn:E.
  - cbn [PyStr.nonempty] in *. rewrite lookup_empty. by rewrite Hne.
  - cbn [PyStr.nonempty]. rewrite lookup_singleton_eq.
    rewrite <- E, strip_of_lstrip. by rewrite E.
Qed.

(** No trimmed text with a 1 right after its leading run of action
    characters is parsed: all four fields are None. *)
Lemma extract_features_one (phrase a r : string) :
  PyStr.strip phrase = a +:+ String "1" r -> free_of "(<$1" a = true ->
  extract_features_from_action phrase = (None, None, None, None).
Proof.
  intros Hx Ha. unfold extract_features_from_action.
  by rewrite Hx, rmatch_action_one.
Qed.

Lemma time_char (c : ascii) :
  bool_decide (c = "t"%char) || PyStr.isdigit c = true ->
  negb (PyStr.isspace c) = true
  /\ (PyStr.contains c "1" = false -> cset_mem (NoneOf "(<$1") c = true).
Proof.
  destruct c as [[] [] [] [] [] [] [] []]; vm_compute; try done;
    split; congruence.
Qed.

Lemma t_digits_chars (s : string) :
  t_digits s = true ->
  all_in (fun c => bool_decide (c = "t"%char) || PyStr.isdigit c) s = true.
Proof.
  destruct s as [|c ds]; [done|]. simpl.
  intros [-> [_ Hd]%andb_prop]%andb_prop. simpl.
  eapply all_in_impl; [|done]. intros d ->. by rewrite orb_true_r.
Qed.

(** A text of the form t-number is parsed to four None. *)
Lemma extract_features_t_digits (s : string) :
  t_digits s = true ->
  extract_features_from_action s = (None, None, None, None).
Proof.
  intros Ht. pose proof (t_digits_chars s Ht) as Hc.
  assert (PyStr.strip s = s) as Hs.
  { apply strip_no_space. eapply all_in_impl; [|done].
    intros c H. by apply time_char. }
  destruct (split_at "1" s) as [F1|(a & r & E & Fa)].
  - unfold extract_features_from_action. rewrite Hs.
    rewrite rmatch_action_bare.
    + rewrite lookup_singleton_eq. rewrite !lookup_singleton_ne by done.
      unfold strip_if. replace (PyStr.nonempty s) with true by by destruct s.
      rewrite Hs. change (matches TIME_PATTERN s) with (is_time s).
      rewrite is_time_t_digits by done. by destruct s.
    + by destruct s.
    + eapply (all_in_and _ _ _ s); [|exact Hc|exact F1].
      intros c H1 H2%negb_true_iff. by apply time_char.
  - apply (extract_features_one s a r); [by rewrite Hs|].
    rewrite E, all_in_app in Hc. apply andb_prop in Hc as [Hc _].
    eapply (all_in_and _ _ _ a); [|exact Hc|exact Fa].
    intros c H1 H2%negb_true_iff. by apply time_char.
Qed.

Lemma extract_features_empty :
  extract_features_from_action "" = (None, None, None, None).
Proof. reflexivity. Qed.

End Parser.

(** ** Numbers *)

Section Numbers.

Lemma digit_value_range (d : ascii) :
  PyStr.isdigit d = true -> 0 <= PyStr.digit_value d <= 9.
Proof.
  destruct d as [[] [] [] [] [] [] [] []]; vm_compute; try done;
    intros _; split; discriminate.
Qed.

Lemma int_digits_all (ds : string) : forall acc,
  all_in PyStr.isdigit ds = true ->
  PyStr.int_digits acc ds = Some (digits_value_from acc ds).
Proof.
  induction ds as [|d ds IH]; intros acc; [done|]. simpl.
  intros [Hd Hds]%andb_prop. rewrite Hd. by apply IH.
Qed.

Lemma digits_value_from_nonneg (ds : string) : forall acc,
  all_in PyStr.isdigit ds = true -> 0 <= acc ->
  0 <= digits_value_from acc ds.
Proof.
  induction ds as [|d ds IH]; intros acc; [done|]. simpl.
  intros [Hd Hds]%andb_prop Hacc. apply IH; [done|].
  pose proof (digit_value_range d Hd). lia.
Qed.

Lemma digits_value_nonneg (ds : string) :
  digits ds = true -> 0 <= digits_value ds.
Proof.
  intros [_ H]%andb_prop. by apply digits_value_from_nonneg.
Qed.

Lemma digit_count_app (s t : string) :
  PyStr.digit_count (s +:+ t) = PyStr.digit_count s + PyStr.digit_count t.
Proof.
  induction s as [|c s IH]; [done|].
  rewrite append_cons. cbn [PyStr.digit_count]. rewrite IH. lia.
Qed.

Lemma digit_count_digits (ds : string) :
  all_in PyStr.isdigit ds = true ->
  PyStr.digit_count ds = Z.of_nat (String.length ds).
Proof.
  induction ds as [|d ds IH]; [done|].
  cbn [all_in PyStr.digit_count String.length].
  intros [-> Hds]%andb_prop. rewrite IH by done. lia.
Qed.

(** [int_unsigned] of digits: their value, up to the limit. *)
Lemma int_unsigned_digits (ds : string) :
  digits ds = true ->
  PyStr.int_unsigned ds
  = if decide (PyStr.digit_count ds <= PyStr.max_str_digits)
    then Some (digits_value ds) else None.
Proof.
  destruct ds as [|d ds]; [done|]. unfold digits, PyStr.int_unsigned.
  cbn [PyStr.nonempty andb all_in].
  intros [Hd Hds]%andb_prop. rewrite Hd.
  destruct (decide _); [|done]. by apply int_digits_all.
Qed.

Lemma int_of_stripped (s s' : string) (d : ascii) :
  PyStr.strip s = String d s' -> PyStr.isdigit d = true ->
  PyStr.int s = PyStr.int_unsigned (String d s').
Proof.
  intros Hs Hd. unfold PyStr.int. rewrite Hs.
  destruct d as [[] [] [] [] [] [] [] []]; vm_compute in Hd; done.
Qed.

Lemma digits_no_space (ds : string) :
  digits ds = true ->
  all_in (fun c => negb (PyStr.isspace c)) ds = true.
Proof.
  intros [_ H]%andb_prop. eapply all_in_impl; [|done].
  apply isdigit_not_space.
Qed.

(** [int] of digits, and of digits before one line feed: their value when
    there are no more than [int] converts, [ValueError] otherwise. *)
Lemma int_digits_value (ds : string) :
  digits ds = true ->
  PyStr.int ds
  = if decide (PyStr.digit_count ds <= PyStr.max_str_digits)
    then Some (digits_value ds) else None.
Proof.
  intros H. pose proof (digits_no_space ds H) as Hn.
  destruct ds as [|d ds'] eqn:E; [done|]. rewrite <- E in *.
  rewrite (int_of_stripped ds ds' d).
  - rewrite <- E. by apply int_unsigned_digits.
  - rewrite strip_no_space by done. done.
  - subst. unfold digits in H. simpl in H. by destruct (PyStr.isdigit d).
Qed.

Lemma int_digits_value_LF (ds : string) :
  digits ds = true ->
  PyStr.int (ds +:+ LF)
  = if decide (PyStr.digit_count ds <= PyStr.max_str_digits)
    then Some (digits_value ds) else None.
Proof.
  intros H. pose proof (digits_no_space ds H) as Hn.
  destruct ds as [|d ds'] eqn:E; [done|]. rewrite <- E in *.
  rewrite (int_of_stripped (ds +:+ LF) ds' d).
  - rewrite <- E. by apply int_unsigned_digits.
  - unfold PyStr.strip. rewrite E, append_cons. rewrite <- E.
    assert (PyStr.lstrip (String d (ds' +:+ LF)) = String d (ds' +:+ LF)) as ->.
    { simpl. subst. simpl in Hn. by destruct (PyStr.isspace d). }
    rewrite <- append_cons, <- E. by rewrite rstrip_no_space_LF.
  - subst. unfold digits in H. simpl in H. by destruct (PyStr.isdigit d).
Qed.

(** The digits of a cell the time pattern matches are those of its
    duration. *)
Lemma within_limit_time (c ds : string) :
  c = String "t" ds \/ c = String "t" (ds +:+ LF) ->
  within_limit c = bool_decide (PyStr.digit_count ds <= PyStr.max_str_digits).
Proof.
  unfold within_limit. intros [-> | ->]; cbn [PyStr.digit_count]; [done|].
  by rewrite digit_count_app, Z.add_0_r.
Qed.

(** The duration read from a cell the time pattern matches: a number from
    0 when the cell is within the limit of [int]. *)
Lemma int_of_time (c : string) :
  is_time c = true -> within_limit c = true ->
  exists n, PyStr.int (PyStr.tail c) = Some n /\ 0 <= n.
Proof.
  intros (ds & Hd & Hc)%is_time_inv.
  rewrite (within_limit_time c ds Hc). intros Hl%bool_decide_eq_true.
  exists (digits_value ds). split; [|by apply digits_value_nonneg].
  destruct Hc as [-> | ->]; cbn [PyStr.tail];
    rewrite ?int_digits_value, ?int_digits_value_LF by done;
    by rewrite decide_True.
Qed.

(** Beyond the limit [int] raises [ValueError]. *)
Lemma int_of_long_time (c : string) :
  is_time c = true -> within_limit c = false ->
  PyStr.int (PyStr.tail c) = None.
Proof.
  intros (ds & Hd & Hc)%is_time_inv.
  rewrite (within_limit_time c ds Hc). intros Hl%bool_decide_eq_false.
  destruct Hc as [-> | ->]; cbn [PyStr.tail];
    rewrite ?int_digits_value, ?int_digits_value_LF by done;
    by rewrite decide_False.
Qed.

(** The duration of a cell of the form t-number is the value of its
    digits. *)
Lemma int_of_t_digits (c : string) :
  t_digits c = true -> within_limit c = true ->
  PyStr.int (PyStr.tail c) = Some (digits_value (PyStr.tail c)).
Proof.
  destruct c as [|t ds]; [done|]. cbn [t_digits PyStr.tail].
  intros [->%bool_decide_eq_true Hd]%andb_prop.
  rewrite (within_limit_time (String "t" ds) ds) by auto.
  intros Hl%bool_decide_eq_true.
  by rewrite int_digits_value, decide_True.
Qed.

End Numbers.

(** ** One row *)

Section Row.

Implicit Types (d : gmap string Z) (f : string -> option string).

Lemma count_opt_lookup (o : option string) d (x : string) :
  default 0 (count_opt o d !! x)
  = default 0 (d !! x) + (if decide (o = Some x) then 1 else 0).
Proof.
  destruct o as [y|]; simpl.
  - destruct (decide (Some y = Some x)) as [[= ->]|Hne].
    + by rewrite lookup_insert_eq.
    + rewrite lookup_insert_ne by congruence. lia.
  - lia.
Qed.

Lemma occurrences_in_cons f (x a : string) (l : list string) :
  occurrences_in f x (a :: l)
  = (if decide (f a = Some x) then 1 else 0) + occurrences_in f x l.
Proof.
  unfold occurrences_in. destruct (decide (f a = Some x)).
  - rewrite filter_cons_True by done. simpl length. lia.
  - rewrite filter_cons_False by done. lia.
Qed.

(** The dictionary of one field after the counting loop. *)
Lemma count_fold_lookup f (l : list string) : forall d (x : string),
  default 0 (foldl (fun d a => count_opt (f a) d) d l !! x)
  = default 0 (d !! x) + occurrences_in f x l.
Proof.
  induction l as [|a l IH]; intros d x.
  - unfold occurrences_in. simpl. lia.
  - simpl. rewrite IH, count_opt_lookup, occurrences_in_cons. lia.
Qed.

Lemma count_features_fold (l : list string) : forall d1 d2 d3 d4,
  foldl count_features (d1, d2, d3, d4) l
  = (foldl (fun d a => count_opt (action_of a) d) d1 l,
     foldl (fun d a => count_opt (screen_of a) d) d2 l,
     foldl (fun d a => count_opt (configuration_of a) d) d3 l,
     foldl (fun d a => count_opt (chaine_of a) d) d4 l).
Proof.
  induction l as [|a l IH]; intros d1 d2 d3 d4; [done|].
  simpl. rewrite <- IH. f_equal.
  unfold count_features, action_of, screen_of, configuration_of, chaine_of.
  by destruct (extract_features_from_action a) as [[[? ?] ?] ?].
Qed.

Lemma counts_of_fold f (l : list string) (s : gset string) :
  counts_of (foldl (fun d a => count_opt (f a) d) ∅ l) s
  = (fun x => VInt (occurrences_in f x l)) <$> elements s.
Proof.
  unfold counts_of. apply list_fmap_ext. intros _ x _.
  rewrite count_fold_lookup, lookup_empty. simpl. f_equal; lia.
Qed.

Lemma occurrences_in_none f (x : string) (l : list string) :
  (forall a, a ∈ l -> f a <> Some x) -> occurrences_in f x l = 0.
Proof.
  intros H. unfold occurrences_in.
  induction l as [|a l IH]; [done|].
  rewrite filter_cons_False by (apply H; left).
  apply IH. intros b Hb. apply H. by right.
Qed.

Lemma last_time_is_time (actions : list string) (c : string) :
  last_time actions = Some c -> c ∈ actions /\ is_time c = true.
Proof.
  intros Hlast%last_Some_elem_of.
  by apply list_elem_of_filter in Hlast as [? ?].
Qed.

(** A row with its leading cells and a last time cell within the limit of
    [int] is projected. *)
Lemma extract_data_from_row_ok self (pre : list string) (nav : string)
    (actions : list string) (c : string) :
  length pre = (if truthy (is_training_data self) then 1 else 0)%nat ->
  last_time actions = Some c -> within_limit c = true ->
  exists n, PyStr.int (PyStr.tail c) = Some n /\ 0 <= n
    /\ extract_data_from_row self (pre ++ nav :: actions)
       = Ok ((VStr <$> pre)
             ++ [VStr nav;
                 VInt (Z.of_nat (length (filter (fun a => is_time a = false) actions)));
                 VStr (PyStr.tail c);
                 if decide (0 < n)
                 then VFloat (inject_Z (Z.of_nat (length (filter (fun a => is_time a = false) actions)))
                              / inject_Z n)
                 else VInt 0]
             ++ feature_counts self actions).
Proof.
  intros Hpre Hlast Hlim.
  destruct (last_time_is_time _ _ Hlast) as [_ Hc].
  destruct (int_of_time c Hc Hlim) as (n & Hn & Hpos).
  exists n. split; [done|]. split; [done|].
  unfold last_time in Hlast. unfold extract_data_from_row.
  destruct (truthy (is_training_data self)).
  - destruct pre as [|u [|??]]; try done.
    cbn -[filter last foldl counts_of feature_counts PyStr.int PyStr.tail].
    rewrite !drop_0, Hlast.
    cbn -[filter last foldl counts_of feature_counts PyStr.int PyStr.tail].
    rewrite Hn.
    cbn -[filter last foldl counts_of feature_counts PyStr.int PyStr.tail].
    by rewrite count_features_fold, !counts_of_fold.
  - destruct pre; [|done].
    cbn -[filter last foldl counts_of feature_counts PyStr.int PyStr.tail].
    rewrite !drop_0, Hlast.
    cbn -[filter last foldl counts_of feature_counts PyStr.int PyStr.tail].
    rewrite Hn.
    cbn -[filter last foldl counts_of feature_counts PyStr.int PyStr.tail].
    by rewrite count_features_fold, !counts_of_fold.
Qed.

(** A row whose last time cell has more digits than [int] converts is not
    projected: [int] raises [ValueError]. *)
Lemma extract_data_from_row_long self (pre : list string) (nav : string)
    (actions : list string) (c : string) :
  length pre = (if truthy (is_training_data self) then 1 else 0)%nat ->
  last_time actions = Some c -> within_limit c = false ->
  extract_data_from_row self (pre ++ nav :: actions) = Raise ValueError.
Proof.
  intros Hpre Hlast Hlim.
  destruct (last_time_is_time _ _ Hlast) as [_ Hc].
  pose proof (int_of_long_time c Hc Hlim) as Hn.
  unfold last_time in Hlast. unfold extract_data_from_row.
  destruct (truthy (is_training_data self)).
  - destruct pre as [|u [|??]]; try done.
    cbn -[filter last foldl counts_of feature_counts PyStr.int PyStr.tail].
    rewrite !drop_0, Hlast.
    cbn -[filter last foldl counts_of feature_counts PyStr.int PyStr.tail].
    by rewrite Hn.
  - destruct pre; [|done].
    cbn -[filter last foldl counts_of feature_counts PyStr.int PyStr.tail].
    rewrite !drop_0, Hlast.
    cbn -[filter last foldl counts_of feature_counts PyStr.int PyStr.tail].
    by rewrite Hn.
Qed.

(** A row without a cell the time pattern matches is not projected. *)
Lemma extract_data_from_row_no_time self (row : list string) :
  filter (fun a => is_time a = true) (tokens_of self row) = [] ->
  extract_data_from_row self row = Raise IndexError.
Proof.
  unfold tokens_of, extract_data_from_row.
  destruct (truthy (is_training_data self)).
  - destruct row as [|u [|nav actions]]; try done.
    cbn -[filter last foldl]. rewrite !drop_0. by intros ->.
  - destruct row as [|nav actions]; try done.
    cbn -[filter last foldl]. rewrite !drop_0. by intros ->.
Qed.

Lemma feature_counts_length self (actions : list string) :
  length (feature_counts self actions)
  = (size (possible_actions_set self) + size (possible_screens_set self)
     + size (possible_configurations_set self)
     + size (possible_chaines_set self))%nat.
Proof.
  unfold feature_counts, size, set_size. simpl.
  rewrite !length_app, !length_fmap. lia.
Qed.

Lemma feature_columns_length self :
  length (feature_columns self)
  = (size (possible_actions_set self) + size (possible_screens_set self)
     + size (possible_configurations_set self)
     + size (possible_chaines_set self))%nat.
Proof.
  unfold feature_columns, size, set_size. simpl.
  rewrite !length_app, !length_fmap. lia.
Qed.

End Row.

(** ** The vocabulary *)

Section Vocabulary.

Implicit Types (self : CSVDataProcessor) (rows : list (list string)).

Lemma tuple4_eq {A B C D : Type} (a a' : A) (b b' : B) (c c' : C) (d d' : D) :
  a = a' -> b = b' -> c = c' -> d = d' -> (a, b, c, d) = (a', b', c', d').
Proof. by intros -> -> -> ->. Qed.

Lemma add_opt_union (o : option string) (s : gset string) :
  add_opt o s = s ∪ list_to_set (option_list o).
Proof. destruct o; simpl; set_solver. Qed.

Lemma add_features_vocabulary self (a : string) :
  vocabulary (add_features self a)
  = (add_opt (action_of a) (possible_actions_set self),
     add_opt (screen_of a) (possible_screens_set self),
     add_opt (configuration_of a) (possible_configurations_set self),
     add_opt (chaine_of a) (possible_chaines_set self)).
Proof.
  unfold add_features, action_of, screen_of, configuration_of, chaine_of.
  by destruct (extract_features_from_action a) as [[[? ?] ?] ?].
Qed.

Lemma add_features_rest self (a : string) :
  train_data_csv_path (add_features self a) = train_data_csv_path self
  /\ data (add_features self a) = data self
  /\ is_training_data (add_features self a) = is_training_data self
  /\ headers (add_features self a) = headers self.
Proof.
  unfold add_features.
  by destruct (extract_features_from_action a) as [[[? ?] ?] ?].
Qed.

Lemma list_to_set_omap_cons (f : string -> option string) (a : string)
    (l : list string) :
  list_to_set (C := gset string) (omap f (a :: l))
  = list_to_set (option_list (f a)) ∪ list_to_set (omap f l).
Proof. simpl. destruct (f a); simpl; set_solver. Qed.

Lemma foldl_add_features_vocabulary (l : list string) : forall self,
  vocabulary (foldl add_features self l)
  = (possible_actions_set self ∪ list_to_set (omap action_of l),
     possible_screens_set self ∪ list_to_set (omap screen_of l),
     possible_configurations_set self ∪ list_to_set (omap configuration_of l),
     possible_chaines_set self ∪ list_to_set (omap chaine_of l)).
Proof.
  induction l as [|a l IH]; intros self.
  - unfold vocabulary. simpl. apply tuple4_eq; set_solver.
  - cbn [foldl]. rewrite IH. rewrite !list_to_set_omap_cons.
    pose proof (add_features_vocabulary self a) as H.
    unfold vocabulary in H. injection H as -> -> -> ->.
    rewrite !add_opt_union. apply tuple4_eq; set_solver.
Qed.

Lemma foldl_add_features_rest (l : list string) : forall self,
  train_data_csv_path (foldl add_features self l) = train_data_csv_path self
  /\ data (foldl add_features self l) = data self
  /\ is_training_data (foldl add_features self l) = is_training_data self
  /\ headers (foldl add_features self l) = headers self.
Proof.
  induction l as [|a l IH]; intros self; [done|]. cbn [foldl].
  destruct (IH (add_features self a)) as (-> & -> & -> & ->).
  apply add_features_rest.
Qed.

Lemma parsed_set_cons f index (row : list string) rows :
  parsed_set f index (row :: rows)
  = list_to_set (omap f (drop index row)) ∪ parsed_set f index rows.
Proof.
  unfold parsed_set. cbn [fmap list_fmap concat].
  rewrite omap_app, list_to_set_app_L. done.
Qed.

(** The scan adds to each set the values its field takes over the token
    cells of the rows, and nothing else. *)
Lemma scan_vocabulary index rows : forall self,
  vocabulary (scan index self rows)
  = (possible_actions_set self ∪ parsed_set action_of index rows,
     possible_screens_set self ∪ parsed_set screen_of index rows,
     possible_configurations_set self ∪ parsed_set configuration_of index rows,
     possible_chaines_set self ∪ parsed_set chaine_of index rows).
Proof.
  induction rows as [|row rows IH]; intros self.
  - unfold vocabulary, parsed_set. simpl. apply tuple4_eq; set_solver.
  - unfold scan in *. cbn [foldl]. rewrite IH. rewrite !parsed_set_cons.
    pose proof (foldl_add_features_vocabulary (drop index row) self) as H.
    unfold vocabulary in H. injection H as -> -> -> ->.
    apply tuple4_eq; set_solver.
Qed.

Lemma scan_rest index rows : forall self,
  train_data_csv_path (scan index self rows) = train_data_csv_path self
  /\ data (scan index self rows) = data self
  /\ is_training_data (scan index self rows) = is_training_data self
  /\ headers (scan index self rows) = headers self.
Proof.
  induction rows as [|row rows IH]; intros self; [done|].
  unfold scan in *. cbn [foldl].
  destruct (IH (foldl add_features self (drop index row))) as (-> & -> & -> & ->).
  apply foldl_add_features_rest.
Qed.

End Vocabulary.

(** ** Projecting rows *)

Section Projection.

Implicit Types (self : CSVDataProcessor) (rows : list (list string)).

(** Cells with a time cell among them have a last one. *)
Lemma last_time_exists (actions : list string) (x : string) :
  x ∈ actions -> is_time x = true -> exists c, last_time actions = Some c.
Proof.
  intros Hx Ht. apply last_is_Some. intros E.
  assert (x ∈ filter (fun a => is_time a = true) actions) as Hin.
  { by apply list_elem_of_filter. }
  rewrite E in Hin. by apply not_elem_of_nil in Hin.
Qed.

Lemma row_shape (training : bool) (row : list string) :
  drop (if training then 2 else 1)%nat row <> [] ->
  exists pre nav, row = pre ++ nav :: drop (if training then 2 else 1)%nat row
    /\ length pre = (if training then 1 else 0)%nat.
Proof.
  destruct training.
  - destruct row as [|u [|nav actions]]; try done. intros _.
    by exists [u], nav.
  - destruct row as [|nav actions]; try done. intros _.
    by exists [], nav.
Qed.

(** A projectable row is projected to a vector of the width of the
    schema. *)
Lemma projectable_ok self (row : list string) :
  projectable (truthy (is_training_data self)) row = true ->
  exists v, extract_data_from_row self row = Ok v
    /\ length v
       = ((if truthy (is_training_data self) then 5 else 4)
          + length (feature_columns self))%nat.
Proof.
  unfold projectable, row_error.
  destruct (last_time _) as [c|] eqn:Hlast; [|done].
  destruct (within_limit c) eqn:Hlim; [|done]. intros _.
  destruct (row_shape (truthy (is_training_data self)) row)
    as (pre & nav & Hrow & Hpre).
  { intros E. by rewrite E in Hlast. }
  destruct (extract_data_from_row_ok self pre nav _ c Hpre Hlast Hlim)
    as (n & _ & _ & Hok).
  rewrite <- Hrow in Hok. eexists. split; [exact Hok|].
  rewrite !length_app, length_fmap, Hpre, feature_counts_length,
    feature_columns_length. simpl.
  destruct (truthy (is_training_data self)); lia.
Qed.

(** The exception of a row that is not projected. *)
Lemma row_error_raises self (row : list string) e :
  row_error (truthy (is_training_data self)) row = Some e ->
  extract_data_from_row self row = Raise e.
Proof.
  unfold row_error.
  destruct (last_time _) as [c|] eqn:Hlast.
  - destruct (within_limit c) eqn:Hlim; [done|]. intros [= <-].
    destruct (row_shape (truthy (is_training_data self)) row)
      as (pre & nav & Hrow & Hpre).
    { intros E. by rewrite E in Hlast. }
    pose proof (extract_data_from_row_long self pre nav _ c Hpre Hlast Hlim)
      as H.
    by rewrite <- Hrow in H.
  - intros [= <-]. apply extract_data_from_row_no_time.
    by apply last_None in Hlast.
Qed.

Lemma row_error_none self (row : list string) :
  row_error (truthy (is_training_data self)) row = None ->
  exists v, extract_data_from_row self row = Ok v
    /\ length v
       = ((if truthy (is_training_data self) then 5 else 4)
          + length (feature_columns self))%nat.
Proof. intros H. apply projectable_ok. unfold projectable. by rewrite H. Qed.

Lemma not_projectable_raises self (row : list string) :
  projectable (truthy (is_training_data self)) row = false ->
  exists e, row_error (truthy (is_training_data self)) row = Some e
    /\ extract_data_from_row self row = Raise e.
Proof.
  unfold projectable.
  destruct (row_error _ row) as [e|] eqn:E; [|done]. intros _.
  exists e. split; [done|]. by apply row_error_raises.
Qed.

(** A vector the projection returns has the width of the schema. *)
Lemma extract_data_from_row_length self (row : list string) (v : list value) :
  extract_data_from_row self row = Ok v ->
  length v
  = ((if truthy (is_training_data self) then 5 else 4)
     + length (feature_columns self))%nat.
Proof.
  intros Hv.
  destruct (row_error (truthy (is_training_data self)) row) as [e|] eqn:E.
  - apply row_error_raises in E. congruence.
  - destruct (row_error_none self row E) as (v' & Hv' & Hlen). congruence.
Qed.

Lemma comprehension_Forall {A B : Type} (f : A -> result B) (P : B -> Prop)
    (l : list A) :
  Forall (fun x => exists y, f x = Ok y /\ P y) l ->
  exists ys, comprehension f l = Ok ys /\ Forall P ys
    /\ length ys = length l.
Proof.
  induction 1 as [|x l (y & Hy & Py) _ (ys & Hys & Pys & Hlen)].
  - by exists [].
  - exists (y :: ys). simpl. rewrite Hy, Hys.
    split; [done|]. split; [by constructor|]. by rewrite Hlen.
Qed.

Lemma comprehension_Forall2 {A B : Type} (f : A -> result B) (l : list A) :
  forall ys, comprehension f l = Ok ys ->
             Forall2 (fun x y => f x = Ok y) l ys.
Proof.
  induction l as [|x l IH]; intros ys; simpl.
  - intros [= <-]. constructor.
  - destruct (f x) as [y|] eqn:Hx; [|done].
    destruct (comprehension f l) as [ys'|]; [|done].
    intros [= <-]. constructor; [done|by apply IH].
Qed.

(** The exception of a comprehension is that of its first element that
    raises one. *)
Lemma comprehension_first_raise {A B : Type} (f : A -> result B) (e : exn)
    (good : list A) (bad : A) (rest : list A) :
  Forall (fun x => exists y, f x = Ok y) good -> f bad = Raise e ->
  comprehension f (good ++ bad :: rest) = Raise e.
Proof.
  intros Hgood Hbad.
  induction Hgood as [|x good (y & Hy) _ IH]; simpl.
  - by rewrite Hbad.
  - by rewrite Hy, IH.
Qed.

Lemma comprehension_raise {A B : Type} (f : A -> result B) (x : A)
    (l : list A) e :
  f x = Raise e -> comprehension f (x :: l) = Raise e.
Proof. intros H. simpl. by rewrite H. Qed.

Lemma frame_width_uniform (vs : list (list value)) (w : nat) :
  Forall (fun v => length v = w) vs -> vs <> [] -> frame_width vs = w.
Proof.
  induction 1 as [|v vs Hv Hvs IH]; [done|]. intros _.
  unfold frame_width in *. simpl. rewrite Hv.
  destruct vs; [simpl; lia|]. rewrite IH by done. lia.
Qed.

Lemma fill_rows_uniform (vs : list (list value)) (w : nat) :
  Forall (fun v => length v = w) vs -> fill_row w <$> vs = vs.
Proof.
  induction 1 as [|v vs Hv Hvs IH]; [done|].
  rewrite fmap_cons, IH. unfold fill_row.
  by rewrite Hv, Nat.sub_diag, app_nil_r.
Qed.

(** The vectors of a list of rows all have the width of the schema. *)
Lemma projections_length self rows (vs : list (list value)) :
  comprehension (extract_data_from_row self) rows = Ok vs ->
  Forall (fun v => length v
                   = ((if truthy (is_training_data self) then 5 else 4)
                      + length (feature_columns self))%nat) vs.
Proof.
  intros H%comprehension_Forall2.
  induction H as [|row v rows vs Hrow _ IH]; constructor; [|done].
  by apply (extract_data_from_row_length self row).
Qed.

(** A table has the labels it is given. *)
Lemma pd_DataFrame_columns (vs : list (list value)) (cs : option (list string))
    (t : DataFrame) :
  pd_DataFrame vs cs = Ok t -> columns t = cs.
Proof.
  unfold pd_DataFrame.
  destruct vs as [|v vs], cs as [cs|]; try (by intros [= <-]).
  destruct (decide _); [by intros [= <-]|done].
Qed.

(** Rows of the width of the labels make a table, unchanged. *)
Lemma pd_DataFrame_uniform (vs : list (list value)) (cs : list string) :
  Forall (fun v => length v = length cs) vs ->
  pd_DataFrame vs (Some cs) = Ok (MkDataFrame (Some cs) vs).
Proof.
  intros H. unfold pd_DataFrame. destruct vs as [|v vs]; [done|].
  rewrite (frame_width_uniform _ _ H) by done.
  rewrite decide_True by done. by rewrite fill_rows_uniform.
Qed.

End Projection.

(** ** The methods of the processor *)

Section Methods.

Implicit Types (self : CSVDataProcessor) (rows : list (list string))
  (fs : filesystem).

Lemma set_is_training_data_same self (b : bool) :
  is_training_data self = Some b ->
  set_is_training_data (Some b) self = self.
Proof. destruct self. cbn. by intros ->. Qed.

Lemma extract_all_possible_features_ok self rows :
  data self = Some rows ->
  extract_all_possible_features self
  = (Ok tt, scan (if truthy (is_training_data self) then 2 else 1)%nat self rows).
Proof. intros H. unfold extract_all_possible_features. by rewrite H. Qed.

Lemma create_headers_training self rows :
  truthy (is_training_data self) = true -> data self = Some rows ->
  create_headers self
  = (Ok ("user" :: base_columns ++ feature_columns (scan 2 self rows)),
     scan 2 self rows).
Proof.
  intros Ht Hd. unfold create_headers.
  rewrite (extract_all_possible_features_ok self rows Hd), Ht. done.
Qed.

Lemma create_headers_test self :
  truthy (is_training_data self) = false ->
  create_headers self = (Ok (base_columns ++ feature_columns self), self).
Proof. intros Ht. unfold create_headers. by rewrite Ht. Qed.

Lemma feature_columns_vocabulary self self' :
  vocabulary self = vocabulary self' ->
  feature_columns self = feature_columns self'.
Proof.
  unfold vocabulary, feature_columns. by intros [= -> -> -> ->].
Qed.

Lemma feature_counts_vocabulary self self' (actions : list string) :
  vocabulary self = vocabulary self' ->
  feature_counts self actions = feature_counts self' actions.
Proof.
  unfold vocabulary, feature_counts. by intros [= -> -> -> ->].
Qed.

Lemma initialise_ok fs self (row : list string) rows :
  fs (train_data_csv_path self) = Some (row :: rows) ->
  _initialise fs self = (Ok tt, initialised self (row :: rows)).
Proof.
  intros Hfs. unfold _initialise, read_csv_file. rewrite Hfs.
  cbn [app]. by erewrite create_headers_training.
Qed.

Lemma initialised_fields self rows :
  train_data_csv_path (initialised self rows) = train_data_csv_path self
  /\ data (initialised self rows) = Some rows
  /\ is_training_data (initialised self rows) = Some true
  /\ headers (initialised self rows)
     = Some ("user" :: base_columns ++ feature_columns (initialised self rows)).
Proof.
  unfold initialised.
  destruct (scan_rest 2 rows
              (set_data (Some rows) (set_is_training_data (Some true) self)))
    as (H1 & H2 & H3 & _).
  repeat split; try done.
Qed.

Lemma initialised_vocabulary self rows :
  vocabulary (initialised self rows)
  = (possible_actions_set self ∪ parsed_set action_of 2 rows,
     possible_screens_set self ∪ parsed_set screen_of 2 rows,
     possible_configurations_set self ∪ parsed_set configuration_of 2 rows,
     possible_chaines_set self ∪ parsed_set chaine_of 2 rows).
Proof.
  unfold initialised.
  exact (scan_vocabulary 2 rows
    (set_data (Some rows) (set_is_training_data (Some true) self))).
Qed.

Lemma process_data_vocabulary d b self :
  vocabulary (process_data d b self).2 = vocabulary self
  /\ headers (process_data d b self).2 = headers self
  /\ train_data_csv_path (process_data d b self).2 = train_data_csv_path self.
Proof.
  unfold process_data.
  destruct b, d as [d|], (headers self) as [h|] eqn:Hh, (data self) eqn:Hd;
    simpl; rewrite ?Hh, ?Hd; simpl; rewrite ?Hd; done.
Qed.

(** Projecting the rows held, in the mode held. *)
Lemma project_rows_ok self rows :
  Forall (fun row => projectable (truthy (is_training_data self)) row = true) rows ->
  exists vs,
    comprehension (extract_data_from_row self) rows = Ok vs
    /\ Forall (fun v => length v
                = ((if truthy (is_training_data self) then 5 else 4)
                   + length (feature_columns self))%nat) vs
    /\ length vs = length rows.
Proof.
  intros H. apply comprehension_Forall.
  eapply Forall_impl; [exact H|]. intros row Hrow.
  by apply projectable_ok.
Qed.

(** Test rows that are all projectable are projected under the schema
    without its first column. *)
Lemma process_data_test self (h : list string) (d : list (list string)) :
  headers self = Some h ->
  length h = (5 + length (feature_columns self))%nat ->
  Forall (fun row => projectable false row = true) d ->
  exists vs,
    comprehension
      (extract_data_from_row
         (set_is_training_data (Some false) (set_data (Some d) self))) d
    = Ok vs
    /\ process_data (Some d) false self
       = (Ok (MkDataFrame (Some (drop 1 h)) vs),
          set_is_training_data (Some false) (set_data (Some d) self)).
Proof.
  intros Hh Hlen Hd.
  destruct (project_rows_ok
              (set_is_training_data (Some false) (set_data (Some d) self)) d Hd)
    as (vs & Hvs & Hw & _).
  exists vs. split; [done|].
  unfold process_data. cbn [negb set_data headers]. rewrite Hh.
  cbn [set_is_training_data set_data data]. fold (set_data (Some d) self).
  fold (set_is_training_data (Some false) (set_data (Some d) self)).
  rewrite Hvs. cbn [mbind result_bind].
  rewrite pd_DataFrame_uniform; [done|].
  eapply Forall_impl; [exact Hw|]. intros v ->.
  rewrite length_drop, Hlen.
  change (feature_columns (set_is_training_data _ (set_data _ self)))
    with (feature_columns self).
  simpl. lia.
Qed.

(** Training rows that are all projectable are projected under the
    schema. *)
Lemma process_data_train self (h : list string) rows :
  headers self = Some h -> data self = Some rows ->
  length h = (5 + length (feature_columns self))%nat ->
  Forall (fun row => projectable true row = true) rows ->
  exists vs,
    comprehension
      (extract_data_from_row (set_is_training_data (Some true) self)) rows
    = Ok vs
    /\ process_data None true self
       = (Ok (MkDataFrame (Some h) vs), set_is_training_data (Some true) self).
Proof.
  intros Hh Hd Hlen Hrows.
  destruct (project_rows_ok (set_is_training_data (Some true) self) rows Hrows)
    as (vs & Hvs & Hw & _).
  exists vs. split; [done|].
  unfold process_data. cbn [negb set_is_training_data data]. rewrite Hd, Hh.
  fold (set_is_training_data (Some true) self).
  rewrite Hvs. cbn [mbind result_bind].
  rewrite pd_DataFrame_uniform; [done|].
  eapply Forall_impl; [exact Hw|]. intros v ->. rewrite Hlen.
  change (feature_columns (set_is_training_data _ self))
    with (feature_columns self).
  simpl. lia.
Qed.

End Methods.

(** ** What a match leaves in group 1 *)

Section Groups.

Lemma keeps_done j : keeps j done_.
Proof. intros p s g m [= <-]. done. Qed.

Lemma keeps_eol j k : keeps j k -> keeps j (run Eol k).
Proof.
  intros Hk p s g m. rewrite run_eol. destruct (at_eol s); [|done]. apply Hk.
Qed.

Lemma keeps_bracket j (o c : ascii) i k :
  i <> j -> keeps j k -> keeps j (run (bracket o c i) k).
Proof.
  intros Hij Hk p s g m
    [H|(b & r & q & -> & _ & _ & H)]%run_bracket_inv; apply Hk in H; [done|].
  by rewrite lookup_insert_ne in H.
Qed.

Lemma keeps_fields : keeps 1 (run FIELDS done_).
Proof.
  unfold FIELDS. intros p s g m. rewrite !run_cat. revert p s g m.
  repeat (apply keeps_bracket; [done|]).
  apply keeps_eol, keeps_done.
Qed.

(** Group 1 of a match is a non-empty run of action characters. *)
Lemma rmatch_action_group_1 (x a : string) m :
  rmatch ACTION_PATTERN x = Some m -> m !! 1%nat = Some a ->
  PyStr.nonempty a = true /\ free_of "(<$1" a = true.
Proof.
  rewrite rmatch_action_unfold.
  destruct (run (Grp 1 _) _ _) as [m'|] eqn:He.
  - intros [= ->].
    apply run_grp_plus_inv in He as (a' & r & -> & Hne & Ha & Hk).
    apply keeps_fields in Hk. rewrite lookup_insert_eq in Hk.
    rewrite Hk. by intros [= <-].
  - intros H%keeps_fields. by rewrite H, lookup_empty.
Qed.

End Groups.

(** ** The entry points *)

Section EntryPoints.

Implicit Types (self : CSVDataProcessor) (fs : filesystem).

(** An initialised processor keeps its sets through a test run. *)
Lemma get_processed_test_data_vocabulary fs (path : string) self :
  headers self <> None ->
  vocabulary (get_processed_test_data fs path self).2 = vocabulary self.
Proof.
  intros Hh. unfold get_processed_test_data.
  rewrite bool_decide_eq_false_2 by done.
  destruct (read_csv_file fs path true) as [d|e]; [|done].
  by destruct (process_data_vocabulary (Some d) false
                 (set_is_training_data (Some false) self)) as (-> & _).
Qed.

(** With rows and headers in place the training file is not read again:
    the rows held are projected, whichever they are. *)
Lemma get_processed_train_data_held fs self rows (h : list string) :
  data self = Some rows -> headers self = Some h ->
  get_processed_train_data fs self = process_data None true self.
Proof.
  intros Hd Hh. unfold get_processed_train_data.
  rewrite Hd, Hh. by rewrite !bool_decide_eq_false_2.
Qed.

Lemma feature_counts_lookup self (actions : list string) :
  let A := possible_actions_set self in
  let S := possible_screens_set self in
  let C := possible_configurations_set self in
  let Ch := possible_chaines_set self in
  forall (i : nat) (x : string),
    (elements A !! i = Some x ->
     feature_counts self actions !! i
     = Some (VInt (occurrences_in action_of x actions)))
    /\ (elements S !! i = Some x ->
        feature_counts self actions !! (size A + i)%nat
        = Some (VInt (occurrences_in screen_of x actions)))
    /\ (elements C !! i = Some x ->
        feature_counts self actions !! (size A + size S + i)%nat
        = Some (VInt (occurrences_in configuration_of x actions)))
    /\ (elements Ch !! i = Some x ->
        feature_counts self actions !! (size A + size S + size C + i)%nat
        = Some (VInt (occurrences_in chaine_of x actions))).
Proof.
  intros A S C Ch i x. unfold feature_counts. fold A S C Ch.
  unfold size, set_size. simpl.
  set (la := _ <$> elements A). set (ls := _ <$> elements S).
  set (lc := _ <$> elements C). set (lh := _ <$> elements Ch).
  assert (length la = length (elements A)) as Ea by apply length_fmap.
  assert (length ls = length (elements S)) as Es by apply length_fmap.
  assert (length lc = length (elements C)) as Ec by apply length_fmap.
  repeat split; intros Hx.
  - rewrite lookup_app_l by (rewrite Ea; by eapply lookup_lt_Some).
    subst la. by rewrite list_lookup_fmap, Hx.
  - rewrite lookup_app_r by lia.
    rewrite lookup_app_l
      by (rewrite Ea, Es; apply lookup_lt_Some in Hx; lia).
    replace (length (elements A) + i - length la)%nat with i by lia.
    subst ls. by rewrite list_lookup_fmap, Hx.
  - rewrite lookup_app_r by lia. rewrite lookup_app_r by lia.
    rewrite lookup_app_l
      by (rewrite Ea, Es, Ec; apply lookup_lt_Some in Hx; lia).
    replace (length (elements A) + length (elements S) + i
             - length la - length ls)%nat with i by lia.
    subst lc. by rewrite list_lookup_fmap, Hx.
  - rewrite lookup_app_r by lia. rewrite lookup_app_r by lia.
    rewrite lookup_app_r by lia.
    replace (length (elements A) + length (elements S)
             + length (elements C) + i
             - length la - length ls - length lc)%nat with i by lia.
    subst lh. by rewrite list_lookup_fmap, Hx.
Qed.

(** A row with a token cell of the form t-number has a last time cell. *)
Lemma t_digits_last_time (actions : list string) (c : string) :
  c ∈ actions -> t_digits c = true -> exists c', last_time actions = Some c'.
Proof.
  intros Hc Ht. apply (last_time_exists actions c Hc).
  by apply is_time_t_digits.
Qed.

End EntryPoints.

(** ** The properties of the specification *)

(** C1, on a row where the code departs from the property. The token cells
    of the row [u1, chrome, t5 + line feed] have no cell of the form
    t-number, so the property asks for the missing-duration error. The
    pattern [^t\d+$] matches the cell all the same ([$] also matches just
    before a final line feed), and the row is projected, with a session
    duration 5 + line feed that is no run of digits. *)
Theorem line_feed_cell_taken_as_time :
  existsb t_digits (tokens_of example_processor ["u1"; "chrome"; "t5" +:+ LF])
  = false
  /\ extract_data_from_row example_processor ["u1"; "chrome"; "t5" +:+ LF]
     = Ok [VStr "u1"; VStr "chrome"; VInt 0; VStr ("5" +:+ LF);
           VFloat (0 # 5); VInt 0; VInt 0].
Proof. split; vm_compute; reflexivity. Qed.

(** C2, as the code has it: for A, S, C and Ch without any of ( ) < > $,
    A without 1, and S, C, Ch not empty, the text A(S)<C>$Ch$ is parsed to
    A, S, C and Ch stripped of surrounding white space, Ch in lower case;
    a part that is empty once stripped is None, and so is an action of the
    form t-number. *)
Theorem extract_features_round_trip (A S C Ch : string) :
  free_of "()<>$" A = true -> free_of "1" A = true ->
  free_of "()<>$" S = true -> free_of "()<>$" C = true ->
  free_of "()<>$" Ch = true ->
  PyStr.nonempty S = true -> PyStr.nonempty C = true ->
  PyStr.nonempty Ch = true ->
  extract_features_from_action (phrase_of A S C Ch)
  = (action_or_none (PyStr.strip A), text_or_none (PyStr.strip S),
     text_or_none (PyStr.strip C),
     text_or_none (PyStr.lower (PyStr.strip Ch))).
Proof. apply extract_features_phrase_of. Qed.

Lemma extract_features_round_trip_witness :
  extract_features_from_action (phrase_of "clic " "home" "cfg A" "ChA")
  = (action_or_none (PyStr.strip "clic "), text_or_none (PyStr.strip "home"),
     text_or_none (PyStr.strip "cfg A"),
     text_or_none (PyStr.lower (PyStr.strip "ChA"))).
Proof. apply extract_features_round_trip; reflexivity. Defined.

(** C2 as stated fails: a blank after the action is stripped, so the
    action returned is not A. *)
Lemma extract_features_round_trip_counterexample :
  free_of "()<>$1" "a " = true /\ free_of "()<>$" "s" = true
  /\ free_of "()<>$" "c" = true /\ free_of "()<>$" "D" = true
  /\ extract_features_from_action (phrase_of "a " "s" "c" "D")
     <> (Some "a ", Some "s", Some "c", Some (PyStr.lower "D")).
Proof. repeat split; vm_compute; congruence. Qed.

(** C3, as the code has it: when the trimmed text has the digit 1 right
    after its leading run of characters other than ( < $ 1, the pattern
    does not match and all four fields are None; nothing is truncated. *)
Theorem action_with_one_is_not_parsed (phrase a r : string) :
  PyStr.strip phrase = a +:+ String "1" r -> free_of "(<$1" a = true ->
  extract_features_from_action phrase = (None, None, None, None).
Proof. apply extract_features_one. Qed.

Lemma action_with_one_is_not_parsed_witness :
  extract_features_from_action "ab1cd" = (None, None, None, None).
Proof.
  apply (action_with_one_is_not_parsed "ab1cd" "ab" "cd"); reflexivity.
Defined.

(** C3 as stated fails: the action of ab1cd is not ab. *)
Lemma action_with_one_counterexample :
  action_of "ab1cd" <> Some "ab".
Proof. vm_compute. congruence. Qed.

(** C4, on a call sequence where the code departs from the property: after
    [get_processed_test_data], [get_processed_train_data] projects the test
    rows it finds in [data], read as training rows, and not the rows of the
    training file. *)
Theorem train_after_test_projects_test_rows :
  let columns :=
    ["user"; "navigator"; "total_actions"; "session_duration"; "avg_speed";
     "occurrence of action 'click' "; "occurrence of screen 'home' "] in
  let tested :=
    (get_processed_test_data example_files "test.csv" (__init__ "train.csv")).2 in
  (get_processed_train_data example_files (__init__ "train.csv")).1
  = Ok (MkDataFrame (Some columns)
          [[VStr "u1"; VStr "chrome"; VInt 1; VStr "12"; VFloat (1 # 12);
            VInt 1; VInt 1]])
  /\ (get_processed_train_data example_files tested).1
     = Ok (MkDataFrame (Some columns)
             [[VStr "firefox"; VStr "scroll(page)"; VInt 0; VStr "7";
               VFloat (0 # 7); VInt 0; VInt 0]]).
Proof. split; vm_compute; reflexivity. Qed.

(** C5, on a row where the code departs from the property. Of the token
    cells [click(home), t5 + line feed, t12] two are not of the form
    t-number, yet [total_actions] is 1: the pattern [^t\d+$] matches the
    cell that ends in a line feed, which is then not counted. *)
Theorem line_feed_cell_not_counted :
  let tokens := ["click(home)"; "t5" +:+ LF; "t12"] in
  length (filter (fun c => t_digits c = false) tokens) = 2%nat
  /\ extract_data_from_row example_processor ("u1" :: "chrome" :: tokens)
     = Ok [VStr "u1"; VStr "chrome"; VInt 1; VStr "12"; VFloat (1 # 12);
           VInt 1; VInt 1].
Proof. split; vm_compute; reflexivity. Qed.

(** C6, within the limit of [int]. A row with a token cell of the form
    t-number has a last cell the time pattern matches. When that cell has
    no more digits than [int] converts, the row is projected:
    [total_actions] is the number of token cells the pattern does not
    match, [session_duration] is that last cell without its first
    character, and [avg_speed] is [total_actions] divided by the integer
    value of [session_duration] when that is above 0, and the int 0 when it
    is 0, with no division. When the cell has more digits, [int] raises
    [ValueError] and there is no [avg_speed]. *)
Theorem avg_speed_of_projected_row (self : CSVDataProcessor)
    (row : list string) (c : string) :
  c ∈ tokens_of self row -> t_digits c = true ->
  let off := (if truthy (is_training_data self) then 1 else 0)%nat in
  let total :=
    Z.of_nat (length (filter (fun a => is_time a = false)
                        (tokens_of self row))) in
  exists last : string,
    last_time (tokens_of self row) = Some last
    /\ if within_limit last
       then exists (n : Z) (v : list value),
              PyStr.int (PyStr.tail last) = Some n /\ 0 <= n
              /\ (t_digits last = true -> n = digits_value (PyStr.tail last))
              /\ extract_data_from_row self row = Ok v
              /\ v !! (off + 1)%nat = Some (VInt total)
              /\ v !! (off + 2)%nat = Some (VStr (PyStr.tail last))
              /\ v !! (off + 3)%nat
                 = Some (if decide (0 < n)
                         then VFloat (inject_Z total / inject_Z n)
                         else VInt 0)
       else extract_data_from_row self row = Raise ValueError.
Proof.
  unfold tokens_of. intros Hc Ht. cbv zeta.
  destruct (t_digits_last_time _ c Hc Ht) as [c' Hc'].
  exists c'. split; [done|].
  destruct (row_shape (truthy (is_training_data self)) row)
    as (pre & nav & Hrow & Hpre).
  { intros E. rewrite E in Hc. by apply not_elem_of_nil in Hc. }
  destruct (within_limit c') eqn:Hlim.
  - destruct (extract_data_from_row_ok self pre nav _ c' Hpre Hc' Hlim)
      as (n & Hn & Hpos & Hok).
    rewrite <- Hrow in Hok.
    exists n. eexists. split; [exact Hn|]. split; [exact Hpos|]. split.
    { intros Ht'. rewrite (int_of_t_digits c' Ht' Hlim) in Hn.
      by injection Hn. }
    split; [exact Hok|].
    destruct (truthy (is_training_data self));
      [destruct pre as [|u [|??]]|destruct pre]; done.
  - pose proof (extract_data_from_row_long self pre nav _ c' Hpre Hc' Hlim)
      as H.
    by rewrite <- Hrow in H.
Qed.

(** On the example row the speed is 1/12; on a row of duration 0 it is the
    int 0. *)
Lemma avg_speed_of_projected_row_witness :
  (exists v : list value,
     extract_data_from_row example_processor
       ["u1"; "chrome"; "t5"; "click(home)"; "t12"] = Ok v
     /\ v !! 2%nat = Some (VInt 1) /\ v !! 3%nat = Some (VStr "12")
     /\ v !! 4%nat = Some (VFloat (1 # 12)))
  /\ (exists v : list value,
        extract_data_from_row example_processor
          ["u1"; "chrome"; "click(home)"; "t0"] = Ok v
        /\ v !! 2%nat = Some (VInt 1) /\ v !! 3%nat = Some (VStr "0")
        /\ v !! 4%nat = Some (VInt 0)).
Proof.
  split.
  - destruct (avg_speed_of_projected_row example_processor
                ["u1"; "chrome"; "t5"; "click(home)"; "t12"] "t12")
      as (last & Hlast & H).
    + vm_compute. do 2 right. left.
    + reflexivity.
    + vm_compute in Hlast. injection Hlast as <-.
      destruct H as (n & v & Hn & _ & _ & Hv & H2 & H3 & H4).
      vm_compute in Hn. injection Hn as <-.
      exists v. split; [exact Hv|]. split; [exact H2|]. split; [exact H3|].
      exact H4.
  - destruct (avg_speed_of_projected_row example_processor
                ["u1"; "chrome"; "click(home)"; "t0"] "t0")
      as (last & Hlast & H).
    + vm_compute. right. left.
    + reflexivity.
    + vm_compute in Hlast. injection Hlast as <-.
      destruct H as (n & v & Hn & _ & _ & Hv & H2 & H3 & H4).
      vm_compute in Hn. injection Hn as <-.
      exists v. split; [exact Hv|]. split; [exact H2|]. split; [exact H3|].
      exact H4.
Defined.

(** C6 as stated fails on a row whose time cell has 4301 digits: the cell
    is of the form t-number and the value of its digits is 0, yet the row
    has no [avg_speed]: [int] raises [ValueError]. *)
Lemma long_duration_counterexample :
  t_digits long_time = true
  /\ long_time ∈ tokens_of example_processor
                   ["u1"; "chrome"; "click(home)"; long_time]
  /\ digits_value (PyStr.tail long_time) = 0
  /\ extract_data_from_row example_processor
       ["u1"; "chrome"; "click(home)"; long_time] = Raise ValueError.
Proof.
  split; [vm_compute; reflexivity|]. split; [right; left|].
  split; vm_compute; reflexivity.
Qed.

(** C7: in training mode [create_headers] gives five columns and one more
    per member of the four sets it leaves; the schema of a test run, which
    is also what [create_headers] gives in test mode over the same sets, is
    that list without its first column: test rows that are each projectable
    (a time cell, the last one within the limit of [int]) are tabulated
    under it, and no table of a test run has other columns. *)
Theorem create_headers_schema (self : CSVDataProcessor)
    (rows : list (list string)) :
  truthy (is_training_data self) = true -> data self = Some rows ->
  exists (h : list string) (self' : CSVDataProcessor),
    create_headers self = (Ok h, self')
    /\ length h
       = (5 + size (possible_actions_set self')
          + size (possible_screens_set self')
          + size (possible_configurations_set self')
          + size (possible_chaines_set self'))%nat
    /\ head h = Some "user"
    /\ create_headers (set_is_training_data (Some false) self')
       = (Ok (drop 1 h), set_is_training_data (Some false) self')
    /\ (forall d : list (list string),
          Forall (fun row => projectable false row = true) d ->
          exists vs p,
            process_data (Some d) false (set_headers (Some h) self')
            = (Ok (MkDataFrame (Some (drop 1 h)) vs), p)
            /\ length vs = length d)
    /\ (forall (d : list (list string)) (t : DataFrame) p,
          process_data (Some d) false (set_headers (Some h) self') = (Ok t, p) ->
          columns t = Some (drop 1 h)).
Proof.
  intros Ht Hd. eexists _, _. split; [by apply create_headers_training|].
  split.
  { cbn [length]. rewrite length_app, feature_columns_length. simpl. lia. }
  split; [done|]. split; [by rewrite create_headers_test|].
  set (self' := scan 2 self rows).
  set (h := "user" :: base_columns ++ feature_columns self').
  split.
  - intros d Hrows.
    destruct (process_data_test (set_headers (Some h) self') h d)
      as (vs & Hvs & Hp); [done| |done|].
    { change (feature_columns (set_headers _ self'))
        with (feature_columns self').
      subst h. cbn [length]. rewrite length_app. simpl. lia. }
    exists vs, (set_is_training_data (Some false)
                  (set_data (Some d) (set_headers (Some h) self'))).
    split; [exact Hp|].
    destruct (project_rows_ok
                (set_is_training_data (Some false)
                   (set_data (Some d) (set_headers (Some h) self'))) d Hrows)
      as (vs' & Hvs' & _ & Hlen).
    rewrite Hvs in Hvs'. by injection Hvs' as <-.
  - intros d t p. unfold process_data.
    cbn [negb set_data set_headers headers set_is_training_data data].
    destruct (comprehension _ d) as [vs|e]; cbn [mbind result_bind];
      [|done].
    intros [= Ht' _]. by apply pd_DataFrame_columns in Ht'.
Qed.

(** The schema of the example: seven columns, and six for a test run. *)
Lemma create_headers_schema_witness :
  exists (h : list string) (self' : CSVDataProcessor),
    create_headers (set_headers None example_processor) = (Ok h, self')
    /\ length h
       = (5 + size (possible_actions_set self')
          + size (possible_screens_set self')
          + size (possible_configurations_set self')
          + size (possible_chaines_set self'))%nat
    /\ head h = Some "user"
    /\ create_headers (set_is_training_data (Some false) self')
       = (Ok (drop 1 h), set_is_training_data (Some false) self')
    /\ (forall d : list (list string),
          Forall (fun row => projectable false row = true) d ->
          exists vs p,
            process_data (Some d) false (set_headers (Some h) self')
            = (Ok (MkDataFrame (Some (drop 1 h)) vs), p)
            /\ length vs = length d)
    /\ (forall (d : list (list string)) (t : DataFrame) p,
          process_data (Some d) false (set_headers (Some h) self') = (Ok t, p) ->
          columns t = Some (drop 1 h)).
Proof.
  apply (create_headers_schema (set_headers None example_processor)
           [["u1"; "chrome"; "t5"; "click(home)"; "t12"]]);
    vm_compute; reflexivity.
Defined.

(** C8, for the rows that are projected. A test row that is projectable (a
    cell the time pattern matches, the last one within the limit of [int])
    is projected whatever its categories: the vector has the four initial
    cells and one count per member of the four sets, no more; the count of
    a member that no cell of the row parses to is 0; and a test run leaves
    the four sets as they were. *)
Theorem unknown_categories_count_zero (self : CSVDataProcessor)
    (nav : string) (actions : list string) :
  truthy (is_training_data self) = false ->
  projectable false (nav :: actions) = true ->
  exists (total : Z) (dur : string) (avg : value),
    extract_data_from_row self (nav :: actions)
    = Ok ([VStr nav; VInt total; VStr dur; avg]
          ++ feature_counts self actions)
    /\ length (feature_counts self actions) = length (feature_columns self)
    /\ (forall (i : nat) (x : string),
          elements (possible_actions_set self) !! i = Some x ->
          (forall a, a ∈ actions -> action_of a <> Some x) ->
          feature_counts self actions !! i = Some (VInt 0))
    /\ (forall (i : nat) (x : string),
          elements (possible_screens_set self) !! i = Some x ->
          (forall a, a ∈ actions -> screen_of a <> Some x) ->
          feature_counts self actions
            !! (size (possible_actions_set self) + i)%nat = Some (VInt 0))
    /\ (forall (i : nat) (x : string),
          elements (possible_configurations_set self) !! i = Some x ->
          (forall a, a ∈ actions -> configuration_of a <> Some x) ->
          feature_counts self actions
            !! (size (possible_actions_set self)
                + size (possible_screens_set self) + i)%nat = Some (VInt 0))
    /\ (forall (i : nat) (x : string),
          elements (possible_chaines_set self) !! i = Some x ->
          (forall a, a ∈ actions -> chaine_of a <> Some x) ->
          feature_counts self actions
            !! (size (possible_actions_set self)
                + size (possible_screens_set self)
                + size (possible_configurations_set self) + i)%nat
          = Some (VInt 0))
    /\ (forall d, vocabulary (process_data (Some d) false self).2
                  = vocabulary self).
Proof.
  intros Ht Hp. unfold projectable, row_error in Hp.
  cbn [drop] in Hp. rewrite drop_0 in Hp.
  destruct (last_time actions) as [c'|] eqn:Hc'; [|done].
  destruct (within_limit c') eqn:Hlim; [|done].
  destruct (extract_data_from_row_ok self [] nav actions c')
    as (n & _ & _ & Hok); [by rewrite Ht|done|done|].
  eexists _, _, _. split; [exact Hok|].
  split; [by rewrite feature_counts_length, feature_columns_length|].
  repeat split; try (intros i x Hx Hnone;
    destruct (feature_counts_lookup self actions i x) as (H1 & H2 & H3 & H4);
    rewrite ?(H1 Hx), ?(H2 Hx), ?(H3 Hx), ?(H4 Hx);
    by rewrite occurrences_in_none).
  intros d. by destruct (process_data_vocabulary (Some d) false self) as (-> & _).
Qed.

(** The test row of the example: its action scroll and its screen page are
    in no set, and the counts of click and home are 0. *)
Lemma unknown_categories_count_zero_witness :
  (let self := set_is_training_data (Some false) example_processor in
   let actions := ["scroll(page)"; "t7"] in
   exists (total : Z) (dur : string) (avg : value),
    extract_data_from_row self ("firefox" :: actions)
     = Ok ([VStr "firefox"; VInt total; VStr dur; avg]
           ++ feature_counts self actions)
     /\ length (feature_counts self actions) = length (feature_columns self)
     /\ (forall (i : nat) (x : string),
           elements (possible_actions_set self) !! i = Some x ->
           (forall a, a ∈ actions -> action_of a <> Some x) ->
           feature_counts self actions !! i = Some (VInt 0))
     /\ (forall (i : nat) (x : string),
           elements (possible_screens_set self) !! i = Some x ->
           (forall a, a ∈ actions -> screen_of a <> Some x) ->
           feature_counts self actions
             !! (size (possible_actions_set self) + i)%nat = Some (VInt 0))
     /\ (forall (i : nat) (x : string),
           elements (possible_configurations_set self) !! i = Some x ->
           (forall a, a ∈ actions -> configuration_of a <> Some x) ->
           feature_counts self actions
             !! (size (possible_actions_set self)
                 + size (possible_screens_set self) + i)%nat = Some (VInt 0))
     /\ (forall (i : nat) (x : string),
           elements (possible_chaines_set self) !! i = Some x ->
           (forall a, a ∈ actions -> chaine_of a <> Some x) ->
           feature_counts self actions
             !! (size (possible_actions_set self)
                 + size (possible_screens_set self)
                 + size (possible_configurations_set self) + i)%nat
           = Some (VInt 0))
     /\ (forall d, vocabulary (process_data (Some d) false self).2
                   = vocabulary self))
  /\ extract_data_from_row
       (set_is_training_data (Some false) example_processor)
       ["firefox"; "scroll(page)"; "t7"]
     = Ok [VStr "firefox"; VInt 1; VStr "7"; VFloat (1 # 7); VInt 0; VInt 0].
Proof.
  pose proof (unknown_categories_count_zero
                (set_is_training_data (Some false) example_processor)
                "firefox" ["scroll(page)"; "t7"] eq_refl eq_refl) as H.
  split; [exact H|].
  destruct H as (total & dur & avg & H & _).
  vm_compute. reflexivity.
Defined.

(** C8 as stated fails on test rows that are not projectable: the cell
    scroll(page) brings an action and a screen that are in no set, and the
    row raises [ValueError] when its time cell has 4301 digits, and
    [IndexError] when it has no time cell. *)
Lemma unknown_categories_counterexample :
  let self := set_is_training_data (Some false) example_processor in
  action_of "scroll(page)" = Some "scroll"
  /\ screen_of "scroll(page)" = Some "page"
  /\ "scroll" ∉ possible_actions_set self
  /\ "page" ∉ possible_screens_set self
  /\ t_digits long_time = true
  /\ extract_data_from_row self ["firefox"; "scroll(page)"; long_time]
     = Raise ValueError
  /\ extract_data_from_row self ["firefox"; "scroll(page)"]
     = Raise IndexError.
Proof.
  cbv zeta.
  split; [vm_compute; reflexivity|]. split; [vm_compute; reflexivity|].
  split; [apply (bool_decide_eq_false_1 _); vm_compute; reflexivity|].
  split; [apply (bool_decide_eq_false_1 _); vm_compute; reflexivity|].
  repeat split; vm_compute; reflexivity.
Qed.

(** C9: the empty text, and every text of the form t-number, is parsed to
    four None. *)
Theorem time_marker_is_no_action :
  extract_features_from_action "" = (None, None, None, None)
  /\ forall s : string,
       t_digits s = true ->
       extract_features_from_action s = (None, None, None, None).
Proof. split; [reflexivity|apply extract_features_t_digits]. Qed.

(** C10, as the code has it. On a file without rows the flag matters: the
    read raises [IndexError] with [has_header] true and returns no row with
    [has_header] false. On a file with rows [read_csv_file] returns all of
    them, the first one included, whether [has_header] is true or false;
    [_initialise] keeps them all in [data]; the four sets are the values
    parsed from the cells of all the rows, so every cell of the first row
    after its first two gives its action, screen, configuration and chaine
    to them; and [get_processed_train_data] projects the first row with the
    others, as the first of them: its outcome is the table of the vectors
    of all the rows, the one of the first row on top, or the exception of
    the first row that raises one. *)
Theorem read_csv_file_keeps_header (fs : filesystem) (path : string)
    (file_rows : list (list string)) :
  fs path = Some file_rows ->
  match file_rows with
  | [] =>
      read_csv_file fs path true = Raise IndexError
      /\ read_csv_file fs path false = Ok []
  | header :: rows =>
      let self' := (_initialise fs (__init__ path)).2 in
      let project := extract_data_from_row self' in
      let outcome := (get_processed_train_data fs (__init__ path)).1 in
      read_csv_file fs path true = Ok (header :: rows)
      /\ read_csv_file fs path false = Ok (header :: rows)
      /\ (_initialise fs (__init__ path)).1 = Ok tt
      /\ data self' = Some (header :: rows)
      /\ vocabulary self'
         = (parsed_set action_of 2 (header :: rows),
            parsed_set screen_of 2 (header :: rows),
            parsed_set configuration_of 2 (header :: rows),
            parsed_set chaine_of 2 (header :: rows))
      /\ (forall cell x : string,
            cell ∈ drop 2 header ->
            (action_of cell = Some x -> x ∈ possible_actions_set self')
            /\ (screen_of cell = Some x -> x ∈ possible_screens_set self')
            /\ (configuration_of cell = Some x ->
                x ∈ possible_configurations_set self')
            /\ (chaine_of cell = Some x -> x ∈ possible_chaines_set self'))
      /\ (forall e, project header = Raise e -> outcome = Raise e)
      /\ (forall vh e,
            project header = Ok vh -> comprehension project rows = Raise e ->
            outcome = Raise e)
      /\ (forall vh vs,
            project header = Ok vh -> comprehension project rows = Ok vs ->
            outcome = Ok (MkDataFrame (headers self') (vh :: vs)))
  end.
Proof.
  intros Hfs. destruct file_rows as [|header rows].
  { unfold read_csv_file. by rewrite Hfs. }
  pose proof (initialise_ok fs (__init__ path) header rows Hfs) as Hinit.
  cbv zeta. rewrite Hinit. cbn [fst snd].
  set (self' := initialised (__init__ path) (header :: rows)).
  destruct (initialised_fields (__init__ path) (header :: rows))
    as (Hpath & Hdata & Hflag & Hh). fold self' in Hpath, Hdata, Hflag, Hh.
  assert (vocabulary self'
          = (parsed_set action_of 2 (header :: rows),
             parsed_set screen_of 2 (header :: rows),
             parsed_set configuration_of 2 (header :: rows),
             parsed_set chaine_of 2 (header :: rows))) as Hv.
  { pose proof (initialised_vocabulary (__init__ path) (header :: rows)) as Hv.
    fold self' in Hv. rewrite Hv.
    cbn [__init__ possible_actions_set possible_screens_set
         possible_configurations_set possible_chaines_set].
    apply tuple4_eq; set_solver. }
  assert ((get_processed_train_data fs (__init__ path)).1
          = (vs ← comprehension (extract_data_from_row self') (header :: rows);
             pd_DataFrame vs (headers self'))) as Hout.
  { unfold get_processed_train_data. cbn [__init__ data headers].
    rewrite bool_decide_eq_true_2 by done. cbn [orb]. rewrite Hinit.
    fold self'. unfold process_data. cbn [negb].
    rewrite (set_is_training_data_same self' true Hflag), Hdata. done. }
  clearbody self'. unfold read_csv_file. rewrite Hfs.
  split; [done|]. split; [done|]. split; [done|]. split; [done|].
  split; [exact Hv|]. split; [|split; [|split]].
  - intros cell x Hcell. unfold vocabulary in Hv.
    injection Hv as Ha Hs Hc Hch. rewrite Ha, Hs, Hc, Hch, !parsed_set_cons.
    repeat split; intros Hx; apply elem_of_union_l, elem_of_list_to_set,
      list_elem_of_omap; eauto.
  - intros e He. rewrite Hout. cbn [comprehension]. by rewrite He.
  - intros vh e Hvh He. rewrite Hout. cbn [comprehension].
    by rewrite Hvh, He.
  - intros vh vs Hvh Hvs. rewrite Hout. cbn [comprehension].
    rewrite Hvh, Hvs. cbn [mbind result_bind]. rewrite Hh.
    apply pd_DataFrame_uniform. constructor.
    + rewrite (extract_data_from_row_length self' header vh Hvh).
      unfold truthy. rewrite Hflag. cbn [default length].
      rewrite length_app. simpl. lia.
    + eapply Forall_impl; [exact (projections_length self' rows vs Hvs)|].
      intros v ->. unfold truthy. rewrite Hflag. cbn [default length].
      rewrite length_app. simpl. lia.
Qed.

(** The example file has one row: its cells give the two sets their
    members, and its projection is the one row of the table. *)
Lemma read_csv_file_keeps_header_witness :
  let header := ["u1"; "chrome"; "t5"; "click(home)"; "t12"] in
  read_csv_file example_files "train.csv" true = Ok [header]
  /\ read_csv_file example_files "train.csv" false = Ok [header]
  /\ data example_processor = Some [header]
  /\ "click" ∈ possible_actions_set example_processor
  /\ "home" ∈ possible_screens_set example_processor
  /\ (get_processed_train_data example_files (__init__ "train.csv")).1
     = Ok (MkDataFrame
             (Some ["user"; "navigator"; "total_actions"; "session_duration";
                    "avg_speed"; "occurrence of action 'click' ";
                    "occurrence of screen 'home' "])
             [[VStr "u1"; VStr "chrome"; VInt 1; VStr "12"; VFloat (1 # 12);
               VInt 1; VInt 1]]).
Proof.
  destruct (read_csv_file_keeps_header example_files "train.csv"
              [["u1"; "chrome"; "t5"; "click(home)"; "t12"]] eq_refl)
    as (H1 & H2 & _ & Hd & _ & Hcells & _ & _ & Hok).
  cbv zeta. split; [exact H1|]. split; [exact H2|]. split; [exact Hd|].
  destruct (Hcells "click(home)" "click") as (Ha & Hs & _).
  { do 1 right. left. }
  destruct (Hcells "click(home)" "home") as (_ & Hs' & _).
  { do 1 right. left. }
  split; [exact (Ha eq_refl)|]. split; [exact (Hs' eq_refl)|].
  exact (Hok [VStr "u1"; VStr "chrome"; VInt 1; VStr "12"; VFloat (1 # 12);
              VInt 1; VInt 1] [] eq_refl eq_refl).
Defined.

(** C10 as stated fails on a file without rows: with [has_header] true the
    read raises [IndexError], with [has_header] false it returns no row. *)
Lemma read_csv_file_empty_counterexample :
  read_csv_file example_files "empty.csv" true = Raise IndexError
  /\ read_csv_file example_files "empty.csv" false = Ok []
  /\ read_csv_file example_files "empty.csv" true
     <> read_csv_file example_files "empty.csv" false.
Proof. repeat split; vm_compute; congruence. Qed.

(** ** More on strings: strip and lower compose *)

Section StripLower.

Lemma rstrip_idemp (s : string) : PyStr.rstrip (PyStr.rstrip s) = PyStr.rstrip s.
Proof.
  induction s as [|c s IH]; [done|]. simpl.
  destruct (PyStr.rstrip s) as [|d r] eqn:E.
  - destruct (PyStr.isspace c) eqn:Hc; [done|]. simpl. by rewrite Hc.
  - by apply rstrip_fix_cons.
Qed.

Lemma lstrip_fix_head (s : string) :
  match s with String c _ => PyStr.isspace c = false | EmptyString => True end ->
  PyStr.lstrip s = s.
Proof. destruct s as [|c s]; [done|]. simpl. by intros ->. Qed.

Lemma strip_idemp (s : string) : PyStr.strip (PyStr.strip s) = PyStr.strip s.
Proof.
  unfold PyStr.strip. pose proof (lstrip_head s) as H.
  rewrite (lstrip_fix_head (PyStr.rstrip (PyStr.lstrip s))).
  - apply rstrip_idemp.
  - destruct (PyStr.lstrip s) as [|c t] eqn:E; [done|].
    by destruct (rstrip_head (String c t) c t H eq_refl) as [t' ->].
Qed.

Lemma isspace_lower_char (c : ascii) :
  PyStr.isspace (PyStr.lower_char c) = PyStr.isspace c.
Proof. by destruct c as [[] [] [] [] [] [] [] []]. Qed.

Lemma lower_char_idemp (c : ascii) :
  PyStr.lower_char (PyStr.lower_char c) = PyStr.lower_char c.
Proof. by destruct c as [[] [] [] [] [] [] [] []]. Qed.

Lemma lower_idemp (s : string) : PyStr.lower (PyStr.lower s) = PyStr.lower s.
Proof.
  induction s as [|c s IH]; [done|]. simpl. by rewrite lower_char_idemp, IH.
Qed.

Lemma lstrip_lower (s : string) :
  PyStr.lstrip (PyStr.lower s) = PyStr.lower (PyStr.lstrip s).
Proof.
  induction s as [|c s IH]; [done|]. simpl. rewrite isspace_lower_char.
  by destruct (PyStr.isspace c).
Qed.

Lemma rstrip_lower (s : string) :
  PyStr.rstrip (PyStr.lower s) = PyStr.lower (PyStr.rstrip s).
Proof.
  induction s as [|c s IH]; [done|]. simpl. rewrite IH, isspace_lower_char.
  destruct (PyStr.rstrip s); simpl; [by destruct (PyStr.isspace c)|done].
Qed.

Lemma strip_lower (s : string) :
  PyStr.strip (PyStr.lower s) = PyStr.lower (PyStr.strip s).
Proof. unfold PyStr.strip. by rewrite lstrip_lower, rstrip_lower. Qed.

Lemma strip_if_clean (o : option string) (x : string) :
  keep_if (strip_if o) = Some x ->
  PyStr.nonempty x = true /\ PyStr.strip x = x.
Proof.
  destruct o as [g|]; [|done]. simpl.
  destruct (PyStr.nonempty g); [|done]. simpl.
  destruct (PyStr.nonempty (PyStr.strip g)) eqn:E; [|done].
  intros [= <-]. by rewrite strip_idemp.
Qed.

Lemma strip_if_lower_clean (o : option string) (x : string) :
  keep_if (PyStr.lower <$> strip_if o) = Some x ->
  PyStr.nonempty x = true /\ PyStr.strip x = x /\ PyStr.lower x = x.
Proof.
  destruct o as [g|]; [|done]. simpl.
  destruct (PyStr.nonempty g); [|done]. simpl.
  destruct (PyStr.nonempty (PyStr.lower (PyStr.strip g))) eqn:E; [|done].
  intros [= <-]. by rewrite strip_lower, strip_idemp, lower_idemp.
Qed.


End StripLower.

(** ** Helpers for the parser's invariants *)

Section ParserInvariants.

Lemma strip_if_inv (o : option string) (a : string) :
  strip_if o = Some a ->
  exists g : string, o = Some g /\ PyStr.nonempty g = true /\ a = PyStr.strip g.
Proof.
  destruct o as [g|]; [|done]. simpl.
  destruct (PyStr.nonempty g) eqn:E; [|done]. intros [= <-]. eauto.
Qed.

(** What an action that is returned looks like. *)
Lemma action_of_inv (phrase x : string) :
  action_of phrase = Some x ->
  PyStr.nonempty x = true /\ PyStr.strip x = x /\ is_time x = false
  /\ free_of "(<$1" x = true.
Proof.
  unfold action_of, extract_features_from_action.
  destruct (rmatch ACTION_PATTERN (PyStr.strip phrase)) as [m|] eqn:Hm; [|done].
  cbn [fst]. destruct (strip_if (m !! 1%nat)) as [a|] eqn:Ha; [|done].
  destruct (PyStr.nonempty a && negb (matches TIME_PATTERN a)) eqn:Hg; [|done].
  intros [= <-]. apply andb_prop in Hg as [Hne Ht%negb_true_iff].
  apply strip_if_inv in Ha as (g & Hg & _ & ->).
  destruct (rmatch_action_group_1 _ _ _ Hm Hg) as [_ Hfree].
  repeat split; [done|apply strip_idemp|done|by apply all_in_strip].
Qed.

Lemma field_of_inv (phrase x : string) :
  screen_of phrase = Some x \/ configuration_of phrase = Some x ->
  PyStr.nonempty x = true /\ PyStr.strip x = x.
Proof.
  unfold screen_of, configuration_of, extract_features_from_action.
  destruct (rmatch ACTION_PATTERN (PyStr.strip phrase)) as [m|];
    cbn [fst snd]; intros [H|H]; try done; by apply strip_if_clean in H.
Qed.

Lemma chaine_of_inv (phrase x : string) :
  chaine_of phrase = Some x ->
  PyStr.nonempty x = true /\ PyStr.strip x = x /\ PyStr.lower x = x.
Proof.
  unfold chaine_of, extract_features_from_action.
  destruct (rmatch ACTION_PATTERN (PyStr.strip phrase)) as [m|];
    cbn [fst snd]; intros H; try done; by apply strip_if_lower_clean in H.
Qed.

Lemma extract_features_of_strip (phrase : string) :
  extract_features_from_action (PyStr.strip phrase)
  = extract_features_from_action phrase.
Proof. unfold extract_features_from_action. by rewrite strip_idemp. Qed.

Lemma rmatch_action_empty : rmatch ACTION_PATTERN "" = Some ∅.
Proof. reflexivity. Qed.

Lemma extract_features_plain (a : string) :
  free_of "(<$1" a = true ->
  extract_features_from_action a
  = (action_or_none (PyStr.strip a), None, None, None).
Proof.
  intros Ha. unfold extract_features_from_action.
  destruct (PyStr.strip a) as [|c s] eqn:E.
  - by rewrite rmatch_action_empty.
  - rewrite <- E. rewrite rmatch_action_bare.
    + rewrite lookup_singleton_eq, !lookup_singleton_ne by done.
      unfold strip_if, action_or_none, is_time. rewrite strip_idemp.
      by rewrite E.
    + by rewrite E.
    + by apply all_in_strip.
Qed.

End ParserInvariants.

(** ** Properties of the parser *)

(** X1: Every field the parser returns is a non-empty text without leading or
    trailing white space. *)
Theorem parsed_fields_are_stripped (phrase x : string) :
  action_of phrase = Some x \/ screen_of phrase = Some x
  \/ configuration_of phrase = Some x \/ chaine_of phrase = Some x ->
  PyStr.nonempty x = true /\ PyStr.strip x = x.
Proof.
  intros [H|[H|[H|H]]].
  - by apply action_of_inv in H as (? & ? & _).
  - apply (field_of_inv phrase). by left.
  - apply (field_of_inv phrase). by right.
  - by apply chaine_of_inv in H as (? & ? & _).
Qed.

Lemma parsed_fields_are_stripped_witness :
  PyStr.nonempty "cfg A" = true /\ PyStr.strip "cfg A" = "cfg A".
Proof.
  apply (parsed_fields_are_stripped " clic (home)< cfg A >$ ChA $" "cfg A").
  right. right. left. reflexivity.
Defined.

(** X2: A chaine that is returned is in lower case. *)
Theorem parsed_chaine_is_lower_case (phrase x : string) :
  chaine_of phrase = Some x -> PyStr.lower x = x.
Proof. intros H. by apply chaine_of_inv in H as (_ & _ & ?). Qed.

Lemma parsed_chaine_is_lower_case_witness : PyStr.lower "cha" = "cha".
Proof.
  apply (parsed_chaine_is_lower_case "clic(home)<cfg A>$ChA$" "cha").
  reflexivity.
Defined.

(** X3: An action that is returned is not matched by the time pattern, is not
    of the form t-number, and has none of the characters ( < $ 1. *)
Theorem parsed_action_is_no_time_marker (phrase x : string) :
  action_of phrase = Some x ->
  is_time x = false /\ t_digits x = false /\ free_of "(<$1" x = true.
Proof.
  intros (_ & _ & Ht & Hf)%action_of_inv. repeat split; try done.
  destruct (t_digits x) eqn:E; [|done].
  by rewrite (is_time_t_digits x E) in Ht.
Qed.

Lemma parsed_action_is_no_time_marker_witness :
  is_time "clic" = false /\ t_digits "clic" = false
  /\ free_of "(<$1" "clic" = true.
Proof.
  apply (parsed_action_is_no_time_marker "clic(home)<cfg A>$ChA$" "clic").
  reflexivity.
Defined.

(** X4: White space around the text does not matter to the parser. *)
Theorem extract_features_ignores_outer_space (phrase : string) :
  extract_features_from_action (PyStr.strip phrase)
  = extract_features_from_action phrase.
Proof. apply extract_features_of_strip. Qed.

(** X5: A text without any of ( < $ 1 is an action and nothing else: the
    stripped text, or None when that is empty or matches the time
    pattern. *)
Theorem plain_text_is_an_action (a : string) :
  free_of "(<$1" a = true ->
  extract_features_from_action a
  = (action_or_none (PyStr.strip a), None, None, None).
Proof. apply extract_features_plain. Qed.

Lemma plain_text_is_an_action_witness :
  extract_features_from_action " Double clic "
  = (action_or_none (PyStr.strip " Double clic "), None, None, None).
Proof. apply plain_text_is_an_action. reflexivity. Defined.

(** X6: The time pattern matches the texts of the form t-number, and those
    texts followed by one line feed, and no other. *)
Theorem time_pattern_shape (s : string) :
  is_time s = true
  <-> t_digits s = true \/ exists s' : string, s = s' +:+ LF /\ t_digits s' = true.
Proof.
  split.
  - intros (ds & Hd & [-> | ->])%is_time_inv.
    + left. exact Hd.
    + right. exists (String "t" ds). split; [done|exact Hd].
  - intros [H|(s' & -> & H)];
      [by apply is_time_t_digits|by apply is_time_t_digits_LF].
Qed.

(** ** Properties of the vocabulary and of the schema *)

Section Labels.

Lemma append_length (s t : string) :
  String.length (s +:+ t) = (String.length s + String.length t)%nat.
Proof.
  induction s as [|c s IH]; [done|]. rewrite append_cons. simpl. by rewrite IH.
Qed.

Lemma append_inj_r (t s s' : string) : s +:+ t = s' +:+ t -> s = s'.
Proof.
  revert s'. induction s as [|c s IH]; intros [|c' s'] H; try done.
  - apply (f_equal String.length) in H. change ("" +:+ t) with t in H.
    rewrite append_cons in H. simpl in H. rewrite append_length in H. lia.
  - apply (f_equal String.length) in H. change ("" +:+ t) with t in H.
    rewrite append_cons in H. simpl in H. rewrite append_length in H. lia.
  - rewrite !append_cons in H. injection H as -> H. by rewrite (IH _ H).
Qed.

Lemma label_inj (kind : string) : Inj (=) (=) (label kind).
Proof.
  intros x y H. unfold label in H.
  do 3 apply String.app_inj in H. by apply append_inj_r in H.
Qed.

Lemma label_kinds (x y : string) :
  label "action" x <> label "screen" y
  /\ label "action" x <> label "configuration" y
  /\ label "action" x <> label "chaine" y
  /\ label "screen" x <> label "configuration" y
  /\ label "screen" x <> label "chaine" y
  /\ label "configuration" x <> label "chaine" y.
Proof. repeat split; intros H; vm_compute in H; discriminate. Qed.

Lemma label_not_base (kind x : string) :
  label kind x ∉ "user" :: base_columns.
Proof.
  intros H. unfold base_columns in H.
  repeat (apply elem_of_cons in H as [H|H];
          [vm_compute in H; discriminate|]).
  by apply not_elem_of_nil in H.
Qed.

Lemma labels_NoDup (kind : string) (s : gset string) :
  NoDup (label kind <$> elements s).
Proof. apply (NoDup_fmap_2 _ (Inj0 := label_inj kind)), NoDup_elements. Qed.

Lemma labels_apart (k k' : string) (l l' : list string) (c : string) :
  (forall x y, label k x <> label k' y) ->
  c ∈ label k <$> l -> c ∉ label k' <$> l'.
Proof.
  intros Hk (x & -> & _)%list_elem_of_fmap (y & Hy & _)%list_elem_of_fmap.
  by apply (Hk x y).
Qed.

Lemma feature_columns_NoDup self : NoDup (feature_columns self).
Proof.
  unfold feature_columns.
  apply NoDup_app. split; [apply labels_NoDup|]. split.
  { intros c Hc Hin.
    repeat (apply elem_of_app in Hin as [Hin|Hin]);
      revert Hin; eapply labels_apart; try exact Hc;
      intros x y; by destruct (label_kinds x y) as (? & ? & ? & ? & ? & ?). }
  apply NoDup_app. split; [apply labels_NoDup|]. split.
  { intros c Hc Hin.
    repeat (apply elem_of_app in Hin as [Hin|Hin]);
      revert Hin; eapply labels_apart; try exact Hc;
      intros x y; by destruct (label_kinds x y) as (? & ? & ? & ? & ? & ?). }
  apply NoDup_app. split; [apply labels_NoDup|]. split; [|apply labels_NoDup].
  intros c Hc. eapply labels_apart; try exact Hc.
  intros x y; by destruct (label_kinds x y) as (? & ? & ? & ? & ? & ?).
Qed.

Lemma headers_NoDup self : NoDup ("user" :: base_columns ++ feature_columns self).
Proof.
  change ("user" :: base_columns ++ feature_columns self)
    with (("user" :: base_columns) ++ feature_columns self).
  apply NoDup_app. split; [|split].
  - unfold base_columns. repeat (apply NoDup_cons; split;
      [intros H; repeat (apply elem_of_cons in H as [H|H]; [discriminate|]);
       by apply not_elem_of_nil in H|]).
    apply NoDup_nil_2.
  - intros l Hl Hin. unfold feature_columns in Hin.
    repeat (apply elem_of_app in Hin as [Hin|Hin]);
      apply list_elem_of_fmap in Hin as (y & -> & _);
      by apply label_not_base in Hl.
  - apply feature_columns_NoDup.
Qed.

End Labels.

(** X7: The discovery adds to each of the four sets the values its field takes
    over the token cells of the rows held (cells from the third on in
    training mode, from the second on otherwise), and nothing else; the
    other attributes stay. *)
Theorem discovery_adds_parsed_values (self : CSVDataProcessor)
    (rows : list (list string)) :
  data self = Some rows ->
  let index := (if truthy (is_training_data self) then 2 else 1)%nat in
  exists self' : CSVDataProcessor,
    extract_all_possible_features self = (Ok tt, self')
    /\ vocabulary self'
       = (possible_actions_set self ∪ parsed_set action_of index rows,
          possible_screens_set self ∪ parsed_set screen_of index rows,
          possible_configurations_set self
            ∪ parsed_set configuration_of index rows,
          possible_chaines_set self ∪ parsed_set chaine_of index rows)
    /\ data self' = data self /\ headers self' = headers self
    /\ is_training_data self' = is_training_data self.
Proof.
  intros Hd index. exists (scan index self rows).
  split; [by apply extract_all_possible_features_ok|].
  split; [apply scan_vocabulary|].
  by destruct (scan_rest index rows self) as (_ & -> & -> & ->).
Qed.

Lemma discovery_adds_parsed_values_witness :
  exists self' : CSVDataProcessor,
    extract_all_possible_features example_processor = (Ok tt, self')
    /\ vocabulary self'
       = (possible_actions_set example_processor
            ∪ parsed_set action_of 2
                [["u1"; "chrome"; "t5"; "click(home)"; "t12"]],
          possible_screens_set example_processor
            ∪ parsed_set screen_of 2
                [["u1"; "chrome"; "t5"; "click(home)"; "t12"]],
          possible_configurations_set example_processor
            ∪ parsed_set configuration_of 2
                [["u1"; "chrome"; "t5"; "click(home)"; "t12"]],
          possible_chaines_set example_processor
            ∪ parsed_set chaine_of 2
                [["u1"; "chrome"; "t5"; "click(home)"; "t12"]])
    /\ data self' = data example_processor
    /\ headers self' = headers example_processor
    /\ is_training_data self' = is_training_data example_processor.
Proof.
  apply (discovery_adds_parsed_values example_processor
           [["u1"; "chrome"; "t5"; "click(home)"; "t12"]]).
  reflexivity.
Defined.

(** X8: Running the discovery a second time on the same rows changes none of
    the four sets. *)
Theorem discovery_is_idempotent (self : CSVDataProcessor)
    (rows : list (list string)) :
  data self = Some rows ->
  exists self1 self2 : CSVDataProcessor,
    extract_all_possible_features self = (Ok tt, self1)
    /\ extract_all_possible_features self1 = (Ok tt, self2)
    /\ vocabulary self2 = vocabulary self1.
Proof.
  intros Hd.
  set (index := (if truthy (is_training_data self) then 2 else 1)%nat).
  destruct (scan_rest index rows self) as (_ & Hd1 & Hf1 & _).
  exists (scan index self rows), (scan index (scan index self rows) rows).
  split; [by apply extract_all_possible_features_ok|]. split.
  - rewrite (extract_all_possible_features_ok _ rows) by by rewrite Hd1.
    by rewrite Hf1.
  - rewrite (scan_vocabulary index rows (scan index self rows)).
    pose proof (scan_vocabulary index rows self) as H.
    unfold vocabulary in *. injection H as -> -> -> ->.
    apply tuple4_eq; set_solver.
Qed.

Lemma discovery_is_idempotent_witness :
  exists self1 self2 : CSVDataProcessor,
    extract_all_possible_features example_processor = (Ok tt, self1)
    /\ extract_all_possible_features self1 = (Ok tt, self2)
    /\ vocabulary self2 = vocabulary self1.
Proof.
  apply (discovery_is_idempotent example_processor
           [["u1"; "chrome"; "t5"; "click(home)"; "t12"]]).
  reflexivity.
Defined.

(** X9: After [_initialise] on a new processor, no action of the vocabulary is
    matched by the time pattern, none is empty and none has white space
    around it: time cells and blank cells of the training file leave no
    column. *)
Theorem vocabulary_has_no_time_marker (fs : filesystem) (path : string)
    (header : list string) (rows : list (list string)) (x : string) :
  fs path = Some (header :: rows) ->
  x ∈ possible_actions_set (_initialise fs (__init__ path)).2 ->
  is_time x = false /\ PyStr.nonempty x = true /\ PyStr.strip x = x.
Proof.
  intros Hfs. rewrite (initialise_ok fs (__init__ path) header rows Hfs).
  cbn [snd].
  pose proof (initialised_vocabulary (__init__ path) (header :: rows)) as Hv.
  apply (f_equal (fun t => t.1.1.1)) in Hv. cbn [vocabulary fst] in Hv.
  rewrite Hv. cbn [__init__ possible_actions_set].
  rewrite elem_of_union. intros [H|H]; [by apply not_elem_of_empty in H|].
  apply elem_of_list_to_set, list_elem_of_omap in H as (cell & _ & Hx).
  by apply action_of_inv in Hx as (? & ? & ? & _).
Qed.

Lemma vocabulary_has_no_time_marker_witness :
  is_time "click" = false /\ PyStr.nonempty "click" = true
  /\ PyStr.strip "click" = "click".
Proof.
  apply (vocabulary_has_no_time_marker example_files "train.csv"
           ["u1"; "chrome"; "t5"; "click(home)"; "t12"] [] "click").
  - reflexivity.
  - vm_compute. reflexivity.
Defined.

(** X10: The columns [create_headers] gives in training mode are pairwise
    distinct. *)
Theorem headers_are_distinct (self : CSVDataProcessor)
    (rows : list (list string)) :
  truthy (is_training_data self) = true -> data self = Some rows ->
  exists (h : list string) (self' : CSVDataProcessor),
    create_headers self = (Ok h, self') /\ NoDup h /\ NoDup (drop 1 h).
Proof.
  intros Ht Hd. eexists _, _.
  split; [by apply create_headers_training|].
  split; [apply headers_NoDup|].
  pose proof (headers_NoDup (scan 2 self rows)) as H.
  by apply NoDup_cons in H as [_ ?].
Qed.

Lemma headers_are_distinct_witness :
  exists (h : list string) (self' : CSVDataProcessor),
    create_headers (set_headers None example_processor) = (Ok h, self')
    /\ NoDup h /\ NoDup (drop 1 h).
Proof.
  apply (headers_are_distinct (set_headers None example_processor)
           [["u1"; "chrome"; "t5"; "click(home)"; "t12"]]);
    vm_compute; reflexivity.
Defined.

(** ** Properties of the projection and of the entry points *)

Section Tables.



End Tables.

(** X11: The projection of a row has three outcomes, told by the last of its
    token cells the time pattern matches: [IndexError] when there is none,
    [ValueError] when that cell has more digits than [int] converts, and
    otherwise a vector as wide as the schema of the mode. *)
Theorem extract_data_from_row_outcome (self : CSVDataProcessor)
    (row : list string) :
  match last_time (tokens_of self row) with
  | None => extract_data_from_row self row = Raise IndexError
  | Some c =>
      if within_limit c
      then exists v, extract_data_from_row self row = Ok v
             /\ length v
                = ((if truthy (is_training_data self) then 5 else 4)
                   + length (feature_columns self))%nat
      else extract_data_from_row self row = Raise ValueError
  end.
Proof.
  pose proof (row_error_raises self row) as Hr.
  pose proof (row_error_none self row) as Hn.
  unfold row_error in Hr, Hn. unfold tokens_of.
  destruct (last_time _) as [c|]; [destruct (within_limit c)|]; auto.
Qed.

(** X12: The cells of a projected row, when the last cell the time pattern
    matches is within the limit of [int]: the leading cells as they are,
    the number of token cells the pattern does not match, that last cell
    without its first character, the speed, and for each member of the
    four sets the number of token cells whose field parses to it. The
    duration is the value of the digits when the cell is of the form
    t-number. *)
Theorem projected_row_cells (self : CSVDataProcessor) (pre : list string)
    (nav : string) (actions : list string) (c : string) :
  length pre = (if truthy (is_training_data self) then 1 else 0)%nat ->
  last_time actions = Some c -> within_limit c = true ->
  let total :=
    Z.of_nat (length (filter (fun a => is_time a = false) actions)) in
  exists n : Z,
    PyStr.int (PyStr.tail c) = Some n /\ 0 <= n
    /\ (t_digits c = true -> n = digits_value (PyStr.tail c))
    /\ extract_data_from_row self (pre ++ nav :: actions)
       = Ok ((VStr <$> pre)
             ++ [VStr nav; VInt total; VStr (PyStr.tail c);
                 if decide (0 < n)
                 then VFloat (inject_Z total / inject_Z n) else VInt 0]
             ++ feature_counts self actions).
Proof.
  intros Hpre Hlast Hlim total.
  destruct (extract_data_from_row_ok self pre nav actions c Hpre Hlast Hlim)
    as (n & Hn & Hpos & Hok).
  exists n. split; [done|]. split; [done|]. split; [|done].
  intros Ht. rewrite (int_of_t_digits c Ht Hlim) in Hn. by injection Hn.
Qed.

Lemma projected_row_cells_witness :
  PyStr.int (PyStr.tail "t12") = Some 12
  /\ extract_data_from_row example_processor
       (["u1"] ++ "chrome" :: ["t5"; "click(home)"; "t12"])
     = Ok ((VStr <$> ["u1"])
           ++ [VStr "chrome"; VInt 1; VStr "12"; VFloat (1 # 12)]
           ++ feature_counts example_processor ["t5"; "click(home)"; "t12"]).
Proof.
  destruct (projected_row_cells example_processor ["u1"] "chrome"
              ["t5"; "click(home)"; "t12"] "t12" eq_refl eq_refl eq_refl)
    as (n & Hn & _ & Hd & Hok).
  pose proof (Hd eq_refl) as E. vm_compute in E. subst n.
  split; [exact Hn|exact Hok].
Defined.


(** X14: With rows and headers in place, [process_data] in training mode
    either tabulates every row in order under the headers, when each row is
    projectable, or raises the exception of the first row that is not:
    [IndexError] for a row without a time cell, [ValueError] for one whose
    last time cell has more digits than [int] converts. No partial table
    is returned. *)
Theorem process_data_train_outcome (self : CSVDataProcessor)
    (h : list string) (rows : list (list string)) :
  headers self = Some h -> data self = Some rows ->
  length h = (5 + length (feature_columns self))%nat ->
  let self' := set_is_training_data (Some true) self in
  (Forall (fun row => projectable true row = true) rows ->
   exists vs,
     process_data None true self = (Ok (MkDataFrame (Some h) vs), self')
     /\ Forall2 (fun row v => extract_data_from_row self' row = Ok v) rows vs)
  /\ (forall (good : list (list string)) (bad : list string)
             (rest : list (list string)) (e : exn),
        rows = good ++ bad :: rest ->
        Forall (fun row => projectable true row = true) good ->
        row_error true bad = Some e ->
        process_data None true self = (Raise e, self')).
Proof.
  intros Hh Hd Hlen self'. split.
  - intros Hrows.
    destruct (process_data_train self h rows Hh Hd Hlen Hrows) as (vs & Hvs & Hp).
    exists vs. split; [done|]. by apply comprehension_Forall2.
  - intros good bad rest e -> Hgood Hbad.
    unfold process_data. cbn [negb set_is_training_data data].
    rewrite Hd. fold (set_is_training_data (Some true) self). fold self'.
    rewrite (comprehension_first_raise _ e good bad rest); [done| |].
    + eapply Forall_impl; [exact Hgood|]. intros row Hrow.
      destruct (projectable_ok self' row Hrow) as (v & Hv & _). eauto.
    + by apply (row_error_raises self' bad e).
Qed.

(** The table of the example, and a run that stops at its second row. *)
Lemma process_data_train_outcome_witness :
  let good := ["u1"; "chrome"; "t5"; "click(home)"; "t12"] in
  let bad := ["u2"; "safari"; "click(home)"] in
  let h := ["user"; "navigator"; "total_actions"; "session_duration";
            "avg_speed"; "occurrence of action 'click' ";
            "occurrence of screen 'home' "] in
  let self := set_data (Some [good; bad; good]) example_processor in
  (exists vs,
     process_data None true example_processor
     = (Ok (MkDataFrame (Some h) vs),
        set_is_training_data (Some true) example_processor)
     /\ Forall2
          (fun row v =>
             extract_data_from_row
               (set_is_training_data (Some true) example_processor) row
             = Ok v)
          [good] vs)
  /\ process_data None true self
     = (Raise IndexError, set_is_training_data (Some true) self).
Proof.
  cbv zeta. split.
  - apply (proj1 (process_data_train_outcome example_processor _ _
                    eq_refl eq_refl eq_refl)).
    repeat constructor.
  - apply (proj2 (process_data_train_outcome
                    (set_data
                       (Some [["u1"; "chrome"; "t5"; "click(home)"; "t12"];
                              ["u2"; "safari"; "click(home)"];
                              ["u1"; "chrome"; "t5"; "click(home)"; "t12"]])
                       example_processor) _ _ eq_refl eq_refl eq_refl)
             [["u1"; "chrome"; "t5"; "click(home)"; "t12"]]
             ["u2"; "safari"; "click(home)"]
             [["u1"; "chrome"; "t5"; "click(home)"; "t12"]] IndexError).
    + reflexivity.
    + repeat constructor.
    + reflexivity.
Defined.

(** X15: On a new processor whose training file has rows, each projectable
    (a time cell, the last one within the limit of [int]),
    [get_processed_train_data] returns the table of their projections, one
    per row of the file, under the training schema, and leaves the
    processor initialised. *)
Theorem get_processed_train_data_fresh (fs : filesystem) (path : string)
    (header : list string) (rows : list (list string)) :
  fs path = Some (header :: rows) ->
  Forall (fun row => projectable true row = true) (header :: rows) ->
  let self' := initialised (__init__ path) (header :: rows) in
  exists vs,
    get_processed_train_data fs (__init__ path)
    = (Ok (MkDataFrame
             (Some ("user" :: base_columns ++ feature_columns self')) vs),
       self')
    /\ Forall2 (fun row v => extract_data_from_row self' row = Ok v)
         (header :: rows) vs.
Proof.
  intros Hfs Hrows self'.
  destruct (initialised_fields (__init__ path) (header :: rows))
    as (_ & Hd & Hflag & Hh). fold self' in Hd, Hflag, Hh.
  destruct (process_data_train self' _ (header :: rows) Hh Hd)
    as (vs & Hvs & Hp); [|done|].
  { cbn [length]. rewrite length_app. simpl. lia. }
  rewrite (set_is_training_data_same self' true Hflag) in Hvs, Hp.
  exists vs. split; [|by apply comprehension_Forall2].
  unfold get_processed_train_data. cbn [__init__ data headers].
  rewrite bool_decide_eq_true_2 by done. cbn [orb].
  by rewrite (initialise_ok fs (__init__ path) header rows Hfs).
Qed.

Lemma get_processed_train_data_fresh_witness :
  let self' :=
    initialised (__init__ "train.csv")
      [["u1"; "chrome"; "t5"; "click(home)"; "t12"]] in
  exists vs,
    get_processed_train_data example_files (__init__ "train.csv")
    = (Ok (MkDataFrame
             (Some ("user" :: base_columns ++ feature_columns self')) vs),
       self')
    /\ Forall2 (fun row v => extract_data_from_row self' row = Ok v)
         [["u1"; "chrome"; "t5"; "click(home)"; "t12"]] vs.
Proof.
  apply (get_processed_train_data_fresh example_files "train.csv"
           ["u1"; "chrome"; "t5"; "click(home)"; "t12"] []).
  - reflexivity.
  - repeat constructor.
Defined.

(** X16: On a new processor, [get_processed_test_data] first builds the
    vocabulary from the training file, then tabulates the rows of the test
    file, each projectable (a time cell, the last one within the limit of
    [int]), under the schema without [user]; the four sets are those of the
    training file, whatever the test file holds. *)
Theorem get_processed_test_data_fresh (fs : filesystem)
    (path test_path : string) (header : list string)
    (rows : list (list string)) (test_row : list string)
    (test_rows : list (list string)) :
  fs path = Some (header :: rows) ->
  fs test_path = Some (test_row :: test_rows) ->
  Forall (fun row => projectable false row = true) (test_row :: test_rows) ->
  let trained := initialised (__init__ path) (header :: rows) in
  exists vs self',
    get_processed_test_data fs test_path (__init__ path)
    = (Ok (MkDataFrame (Some (base_columns ++ feature_columns trained)) vs),
       self')
    /\ Forall2 (fun row v => extract_data_from_row self' row = Ok v)
         (test_row :: test_rows) vs
    /\ vocabulary self'
       = (parsed_set action_of 2 (header :: rows),
          parsed_set screen_of 2 (header :: rows),
          parsed_set configuration_of 2 (header :: rows),
          parsed_set chaine_of 2 (header :: rows)).
Proof.
  intros Hfs Ht Hrows trained.
  destruct (initialised_fields (__init__ path) (header :: rows))
    as (_ & Hd & Hflag & Hh). fold trained in Hd, Hflag, Hh.
  set (mid := set_is_training_data (Some false) trained).
  destruct (process_data_test mid _ (test_row :: test_rows) Hh)
    as (vs & Hvs & Hp); [|done|].
  { change (feature_columns mid) with (feature_columns trained).
    cbn [length]. rewrite length_app. simpl. lia. }
  eexists vs, _. split; [|split].
  - unfold get_processed_test_data. cbn [__init__ headers].
    rewrite bool_decide_eq_true_2 by done.
    rewrite (initialise_ok fs (__init__ path) header rows Hfs).
    unfold read_csv_file. rewrite Ht. cbn [app]. fold trained. fold mid.
    exact Hp.
  - by apply comprehension_Forall2.
  - pose proof (initialised_vocabulary (__init__ path) (header :: rows)) as Hv.
    fold trained in Hv. cbn [__init__ possible_actions_set possible_screens_set
      possible_configurations_set possible_chaines_set] in Hv.
    change (vocabulary (set_is_training_data (Some false)
              (set_data (Some (test_row :: test_rows)) mid)))
      with (vocabulary trained).
    rewrite Hv. apply tuple4_eq; set_solver.
Qed.

Lemma get_processed_test_data_fresh_witness :
  let trained :=
    initialised (__init__ "train.csv")
      [["u1"; "chrome"; "t5"; "click(home)"; "t12"]] in
  exists vs self',
    get_processed_test_data example_files "test.csv" (__init__ "train.csv")
    = (Ok (MkDataFrame (Some (base_columns ++ feature_columns trained)) vs),
       self')
    /\ Forall2 (fun row v => extract_data_from_row self' row = Ok v)
         [["firefox"; "scroll(page)"; "t7"]] vs
    /\ vocabulary self'
       = (parsed_set action_of 2 [["u1"; "chrome"; "t5"; "click(home)"; "t12"]],
          parsed_set screen_of 2 [["u1"; "chrome"; "t5"; "click(home)"; "t12"]],
          parsed_set configuration_of 2
            [["u1"; "chrome"; "t5"; "click(home)"; "t12"]],
          parsed_set chaine_of 2 [["u1"; "chrome"; "t5"; "click(home)"; "t12"]]).
Proof.
  apply (get_processed_test_data_fresh example_files "train.csv" "test.csv"
           ["u1"; "chrome"; "t5"; "click(home)"; "t12"] []
           ["firefox"; "scroll(page)"; "t7"] []).
  - reflexivity.
  - reflexivity.
  - repeat constructor.
Defined.

(** X17: Once rows and headers are in place, [get_processed_train_data] reads
    no file: its outcome does not depend on the files. *)
Theorem get_processed_train_data_reads_no_file (fs fs' : filesystem)
    (self : CSVDataProcessor) :
  data self <> None -> headers self <> None ->
  get_processed_train_data fs self = get_processed_train_data fs' self.
Proof.
  intros Hd Hh. unfold get_processed_train_data.
  by rewrite !bool_decide_eq_false_2.
Qed.

Lemma get_processed_train_data_reads_no_file_witness :
  get_processed_train_data example_files example_processor
  = get_processed_train_data (fun _ => None) example_processor.
Proof.
  apply get_processed_train_data_reads_no_file; vm_compute; congruence.
Defined.

(** X18: A training file that cannot be opened gives [OSError] from both entry
    points, and one without rows gives [IndexError]; the new processor is
    left as it was. *)
Theorem unreadable_training_file (fs : filesystem) (path test_path : string) :
  (fs path = None ->
   get_processed_train_data fs (__init__ path) = (Raise OSError, __init__ path)
   /\ get_processed_test_data fs test_path (__init__ path)
      = (Raise OSError, __init__ path))
  /\ (fs path = Some [] ->
      get_processed_train_data fs (__init__ path)
      = (Raise IndexError, __init__ path)
      /\ get_processed_test_data fs test_path (__init__ path)
         = (Raise IndexError, __init__ path)).
Proof.
  split; intros Hfs;
    unfold get_processed_train_data, get_processed_test_data, _initialise,
      read_csv_file; cbn [__init__ data headers train_data_csv_path];
    rewrite !bool_decide_eq_true_2 by done; cbn [orb]; by rewrite Hfs.
Qed.

(** X19: The four sets after [get_processed_test_data] are those [_initialise]
    leaves when the processor had no headers, and those it had otherwise:
    the test file has no part in them. *)
Theorem test_run_vocabulary (fs : filesystem) (test_path : string)
    (self : CSVDataProcessor) :
  vocabulary (get_processed_test_data fs test_path self).2
  = vocabulary (if bool_decide (headers self = None)
                then (_initialise fs self).2 else self).
Proof.
  unfold get_processed_test_data.
  destruct (bool_decide (headers self = None)); cbn [snd].
  - destruct (_initialise fs self) as [[[]|e] self1]; [|done]. cbn [snd].
    destruct (read_csv_file fs test_path true) as [d|e]; [|done].
    by destruct (process_data_vocabulary (Some d) false
                   (set_is_training_data (Some false) self1)) as (-> & _).
  - destruct (read_csv_file fs test_path true) as [d|e]; [|done].
    by destruct (process_data_vocabulary (Some d) false
                   (set_is_training_data (Some false) self)) as (-> & _).
Qed.
